(** * Machine operator monitor

    A shallow embedding of the frame worker of the monitor (package [main]):
    the data it keeps about the operator, the per-frame classification
    ([detectStatus]), the alert tracker inside [frameRunner], the messages
    built from a [Result], the performance sample and the render step of the
    main loop.  Channels are modelled by the values that travel on them and
    the wall clock by the readings the program takes from it. *)

From Stdlib Require Import ZArith Bool List String Ascii Lia Floats Permutation.
Import ListNotations.

Local Open Scope Z_scope.

(** ** Package [time] as the program uses it *)

Module GoTime.

(** A [time.Duration] is a signed 64-bit count of nanoseconds. *)
Definition Duration := Z.

(** A [time.Time] instant, counted in nanoseconds from the zero [Time]
    (January 1 of year 1, UTC), which is what an unset marker holds. *)
Definition Time := Z.

Definition minDuration : Duration := - 2 ^ 63.
Definition maxDuration : Duration := 2 ^ 63 - 1.

Definition Nanosecond : Duration := 1.
Definition Second : Duration := 1000000000.

Definition zeroTime : Time := 0.

(** [t.Sub(u)]: the difference [t - u], saturated to the range of a
    [Duration]. *)
Definition Sub (t u : Time) : Duration :=
  let d := t - u in
  if d <? minDuration then minDuration
  else if maxDuration <? d then maxDuration
  else d.

(** [time.Since(t)] is [time.Now().Sub(t)]; the reading of the clock is the
    first argument. *)
Definition Since (reading t : Time) : Duration := Sub reading t.

End GoTime.

Import GoTime.

(** ** Package [image]: rectangles *)

Module GoImage.

Record Point := Pt { X : Z; Y : Z }.

Record Rectangle := mkRectangle { Min : Point; Max : Point }.

(** [image.Rect]: the rectangle with the given corners, put in canonical
    form (minimum before maximum on each axis). *)
Definition Rect (x0 y0 x1 y1 : Z) : Rectangle :=
  let '(x0, x1) := if x1 <? x0 then (x1, x0) else (x0, x1) in
  let '(y0, y1) := if y1 <? y0 then (y1, y0) else (y0, y1) in
  mkRectangle (Pt x0 y0) (Pt x1 y1).

Definition Empty (r : Rectangle) : bool :=
  (X (Max r) <=? X (Min r)) || (Y (Max r) <=? Y (Min r)).

(** [r.In(s)]: every point of [r] is in [s]. *)
Definition In_ (r s : Rectangle) : bool :=
  if Empty r then true
  else (X (Min s) <=? X (Min r)) && (X (Max r) <=? X (Max s)) &&
       (Y (Min s) <=? Y (Min r)) && (Y (Max r) <=? Y (Max s)).

End GoImage.

Import GoImage.

(** ** Data model *)

(** The command-line settings the embedded functions read. *)
Record Config := mkConfig {
  sentConfidence : float;
  angryTimeout : Duration;
  watchTimeout : Duration
}.

(** [Status] stores machine operator status. *)
Record Status := mkStatus {
  IsWatching : bool;
  IsAngry : bool;
  checked : bool
}.

(** [new(Status)]: every field is the zero value. *)
Definition new_Status : Status := mkStatus false false false.

Definition set_IsWatching (s : Status) (b : bool) : Status :=
  mkStatus b (IsAngry s) (checked s).

Definition set_IsAngry (s : Status) (b : bool) : Status :=
  mkStatus (IsWatching s) b (checked s).

Definition set_checked (s : Status) (b : bool) : Status :=
  mkStatus (IsWatching s) (IsAngry s) b.

(** [Operator]: the two snapshots and the two temporal markers.  [now] and
    [prev] point to two distinct [Status] objects allocated in [main]; nothing
    else refers to them, so they are held by value here. *)
Record Operator := mkOperator {
  now : Status;
  prev : Status;
  timeStoppedWatching : Time;
  timeStartAngry : Time
}.

Definition set_now (o : Operator) (s : Status) : Operator :=
  mkOperator s (prev o) (timeStoppedWatching o) (timeStartAngry o).

Definition set_prev (o : Operator) (s : Status) : Operator :=
  mkOperator (now o) s (timeStoppedWatching o) (timeStartAngry o).

Definition set_timeStoppedWatching (o : Operator) (t : Time) : Operator :=
  mkOperator (now o) (prev o) t (timeStartAngry o).

Definition set_timeStartAngry (o : Operator) (t : Time) : Operator :=
  mkOperator (now o) (prev o) (timeStoppedWatching o) t.

(** The operator [main] hands to [frameRunner]: [new(Operator)] with two
    fresh statuses. *)
Definition new_Operator : Operator :=
  mkOperator new_Status new_Status zeroTime zeroTime.

(** [Result]: [status] is a pointer in the source, [None] is the nil
    pointer. *)
Record Result := mkResult {
  status : option Status;
  AlertWatching : bool;
  AlertAngry : bool
}.

(** [new(Result)] *)
Definition new_Result : Result := mkResult None false false.

(** [Perf] stores inference engine performance info. *)
Record Perf := mkPerf {
  FaceNet : float;
  SentNet : float;
  PoseNet : float
}.

(** ** Performance sample *)

(** The three networks. *)
Inductive Net := faceNet | sentNet | poseNet.

(** What the inference engine reports: the tick frequency and what
    [GetPerfProfile] returns for each network. *)
Record Profile := mkProfile {
  GetTickFrequency : float;
  GetPerfProfile : Net -> float
}.

(** [getPerformanceInfo], with the networks whose profile it reads, in order.
    The sentiment and pose figures keep the zero value of [float64] unless the
    status was checked. *)
Definition getPerformanceInfo (engine : Profile) (statusChecked : bool)
  : Perf * list Net :=
  let freq := (GetTickFrequency engine / 1000)%float in
  let facePerf := (GetPerfProfile engine faceNet / freq)%float in
  let queried := [faceNet] in
  let '(posePerf, sentPerf, queried) :=
    if statusChecked
    then ((GetPerfProfile engine poseNet / freq)%float,
          (GetPerfProfile engine sentNet / freq)%float,
          queried ++ [poseNet; sentNet])
    else (0%float, 0%float, queried) in
  (mkPerf facePerf sentPerf posePerf, queried).

(** ** Detection: [detectStatus] *)

(** One face rectangle returned by [detectFaces], with what the two other
    networks answer on that region of the frame: the values read from the
    outputs of the layers angle_y_fc and angle_p_fc of the pose network, and
    the maximum of the sentiment network's output with the row it is at. *)
Record Face := mkFace {
  rect : Rectangle;
  angle_y_fc : float;
  angle_p_fc : float;
  confidence : float;
  maxLoc_Y : Z
}.

(** A frame as the worker sees it: its size and the faces found in it. *)
Record Frame := mkFrame {
  Cols : Z;
  Rows : Z;
  faces : list Face
}.

(** [x > -22.5 && x < 22.5] on [float64]. *)
Definition within45 (x : float) : bool :=
  ((-22.5) <? x)%float && (x <? 22.5)%float.

(** The body of the loop of [detectStatus] for a face that passed the bounds
    test: the flags of [s] are only ever set, never cleared. *)
Definition classifyFace (cfg : Config) (s : Status) (f : Face) : Status :=
  let s := if within45 (angle_y_fc f) && within45 (angle_p_fc f)
           then set_IsWatching s true else s in
  let s := if (sentConfidence cfg <? confidence f)%float
           then (if maxLoc_Y f =? 4 then set_IsAngry s true else s)
           else s in
  set_checked s true.

(** The bounds test: the face rectangle is completely inside the frame. *)
Definition insideFrame (img : Frame) (f : Face) : bool :=
  In_ (rect f) (Rect 0 0 (Cols img) (Rows img)).

(** One iteration of [for i := range faces]. *)
Definition detectStep (cfg : Config) (img : Frame) (s : Status) (f : Face) : Status :=
  if negb (insideFrame img f) then s else classifyFace cfg s f.

(** [detectStatus]: one [Status], allocated before the loop and updated by
    every face that is inside the frame. *)
Definition detectStatus (cfg : Config) (img : Frame) : Status :=
  fold_left (detectStep cfg img) (faces img) new_Status.

(** What [detectStatus] returns on a frame whose only face is [f], inside the
    frame: the loop body run once on the fresh status. *)
Definition classifyAlone (cfg : Config) (f : Face) : Status :=
  classifyFace cfg new_Status f.

(** ** The tracker inside [frameRunner] *)

(** The readings of the wall clock a cycle may take, one per call site, in
    program order: the two [time.Now()] and the two [time.Since]. *)
Record Clock := mkClock {
  nowStoppedWatching : Time;
  nowStartAngry : Time;
  sinceStoppedWatching : Time;
  sinceStartAngry : Time
}.

(** A cycle whose four readings are the same instant. *)
Definition tick (t : Time) : Clock := mkClock t t t t.

(** The body of [if status.checked { ... }]: returns the operator and the two
    alerts. *)
Definition updateOperator (cfg : Config) (o : Operator) (st : Status) (clk : Clock)
  : Operator * bool * bool :=
  let o := set_now o (set_IsWatching (now o) (IsWatching st)) in
  let o := set_now o (set_IsAngry (now o) (IsAngry st)) in
  let o := if IsWatching (prev o) && negb (IsWatching (now o))
           then set_timeStoppedWatching o (nowStoppedWatching clk) else o in
  let o := if negb (IsAngry (prev o)) && IsAngry (now o)
           then set_timeStartAngry o (nowStartAngry clk) else o in
  let alertWatching :=
    if negb (IsWatching (prev o)) && negb (IsWatching (now o))
    then Since (sinceStoppedWatching clk) (timeStoppedWatching o) >? watchTimeout cfg
    else false in
  let alertAngry :=
    if IsAngry (prev o) && IsAngry (now o)
    then Since (sinceStartAngry clk) (timeStartAngry o) >? watchTimeout cfg
    else false in
  (o, alertWatching, alertAngry).

(** One cycle of [frameRunner] from the detected status on: alerts reset,
    operator updated when the status is checked, the result built, and the
    previous snapshot overwritten with the fields of the status. *)
Definition trackCycle (cfg : Config) (o : Operator) (st : Status) (clk : Clock)
  : Operator * Result :=
  let '(o, alertWatching, alertAngry) :=
    if checked st then updateOperator cfg o st clk else (o, false, false) in
  let result := mkResult (Some st) alertWatching alertAngry in
  let o := set_prev o (set_IsWatching (prev o) (IsWatching st)) in
  let o := set_prev o (set_IsAngry (prev o) (IsAngry st)) in
  (o, result).

(** One cycle of [frameRunner] on a frame received from [framesChan]. *)
Definition frameCycle (cfg : Config) (o : Operator) (img : Frame) (clk : Clock)
  : Operator * Result :=
  trackCycle cfg o (detectStatus cfg img) clk.

(** [frameRunner] on the frames it receives before the stop signal, each with
    the clock readings of its cycle: the operator at the end and the results
    sent on [resultsChan], in order. *)
Fixpoint frameRunner (cfg : Config) (o : Operator) (frames : list (Frame * Clock))
  : Operator * list Result :=
  match frames with
  | [] => (o, [])
  | (img, clk) :: rest =>
      let '(o, result) := frameCycle cfg o img clk in
      let '(o, results) := frameRunner cfg o rest in
      (o, result :: results)
  end.

(** The outcome of the detection on a frame of a run. *)
Definition outcome (cfg : Config) (x : Frame * Clock) : Status :=
  detectStatus cfg (fst x).

(** The frames [l] received so far are none, or the outcome of the latest one
    has the flag [flag] false. *)
Definition latestNot (flag : Status -> bool) (cfg : Config) (l : list (Frame * Clock))
  : Prop :=
  l = [] \/ exists b x, l = b ++ [x] /\ flag (outcome cfg x) = false.

(** ** Messages built from a [Result] *)

Local Open Scope string_scope.

(** The double quote character. *)
Definition dquote : string := String "034"%char EmptyString.

(** The verb %v applied to a [bool]. *)
Definition fmtBool (b : bool) : string := if b then "true" else "false".

(** [Result.String]; [None] is the nil pointer dereference of [r.status]. *)
Definition Result_String (r : Result) : option string :=
  match status r with
  | None => None
  | Some s => Some ("Watching " ++ fmtBool (IsWatching s) ++ ", Angry: " ++ fmtBool (IsAngry s))
  end.

(** [Result.ToMQTTMessage]; [None] is the nil pointer dereference of
    [r.status]. *)
Definition ToMQTTMessage (r : Result) : option string :=
  match status r with
  | None => None
  | Some s =>
      Some ("{" ++ dquote ++ "Watching" ++ dquote ++ ":" ++ fmtBool (IsWatching s) ++
            ", " ++ dquote ++ "Angry" ++ dquote ++ ": " ++ fmtBool (IsAngry s) ++ "}")
  end.

(** ** The render step of the loop of [main] *)

(** The branch the [select] of the loop takes. *)
Inductive SelectCase :=
| caseSignal
| caseError
| caseResult (r : Result) (p : Perf)
| caseDefault.

(** What one iteration draws: the result label ([None] when [Result.String]
    dereferences a nil status) and whether each alert text is shown. *)
Record Overlay := mkOverlay {
  resultLabel : option string;
  showAlertWatching : bool;
  showAlertAngry : bool
}.

(** [new(Perf)] *)
Definition new_Perf : Perf := mkPerf 0%float 0%float 0%float.

(** One iteration of the loop labelled monitor, from the [select] on, with the
    latest result and sample held by [main]; [None] is [break monitor]. *)
Definition monitorStep (result : Result) (perf : Perf) (sel : SelectCase)
  : option (Result * Perf * Overlay) :=
  match sel with
  | caseSignal => None
  | caseError => None
  | caseResult r p =>
      Some (r, p, mkOverlay (Result_String r) (AlertWatching r) (AlertAngry r))
  | caseDefault =>
      Some (result, perf,
            mkOverlay (Result_String result) (AlertWatching result) (AlertAngry result))
  end.

(** ** Reading a telemetry payload back *)

(** The reading side of the round trip is not part of the program: this is a
    reader for the payload shape the sink accepts, an object whose members
    are booleans under string keys, with optional blanks between tokens. *)
Module Payload.

Definition isBlank (c : ascii) : bool :=
  (c =? " ")%char || (c =? "009")%char || (c =? "010")%char || (c =? "013")%char.

Fixpoint skipBlanks (s : string) : string :=
  match s with
  | String c rest => if isBlank c then skipBlanks rest else s
  | EmptyString => s
  end.

(** The characters up to the closing quote, and what follows it; a key with
    a backslash escape is not accepted. *)
Fixpoint readKey (s : string) : option (string * string) :=
  match s with
  | EmptyString => None
  | String c rest =>
      if (c =? "034")%char then Some (EmptyString, rest)
      else if (c =? "092")%char then None
      else match readKey rest with
           | Some (k, rest') => Some (String c k, rest')
           | None => None
           end
  end.

Fixpoint dropPrefix (p s : string) : option string :=
  match p, s with
  | EmptyString, _ => Some s
  | String a p', String b s' => if (a =? b)%char then dropPrefix p' s' else None
  | String _ _, EmptyString => None
  end.

Definition readBool (s : string) : option (bool * string) :=
  match dropPrefix "true" s with
  | Some rest => Some (true, rest)
  | None =>
      match dropPrefix "false" s with
      | Some rest => Some (false, rest)
      | None => None
      end
  end.

Definition atEnd (s : string) : bool :=
  match skipBlanks s with
  | EmptyString => true
  | String _ _ => false
  end.

(** The members after the opening brace, up to the closing brace and the end
    of the text; [fuel] bounds the number of members. *)
Fixpoint readMembers (fuel : nat) (s : string) : option (list (string * bool)) :=
  match fuel with
  | O => None
  | S fuel =>
      match skipBlanks s with
      | String q s1 =>
          if negb (q =? "034")%char then None else
          match readKey s1 with
          | None => None
          | Some (k, s2) =>
              match skipBlanks s2 with
              | String ":" s3 =>
                  match readBool (skipBlanks s3) with
                  | None => None
                  | Some (b, s4) =>
                      match skipBlanks s4 with
                      | String "," s5 =>
                          match readMembers fuel s5 with
                          | Some ms => Some ((k, b) :: ms)
                          | None => None
                          end
                      | String "}" s5 => if atEnd s5 then Some [(k, b)] else None
                      | _ => None
                      end
                  end
              | _ => None
              end
          end
      | EmptyString => None
      end
  end.

(** The members of the object, in the order written. *)
Definition parse (s : string) : option (list (string * bool)) :=
  match skipBlanks s with
  | String "{" s1 =>
      match skipBlanks s1 with
      | String "}" s2 => if atEnd s2 then Some [] else None
      | _ => readMembers (String.length s) s1
      end
  | _ => None
  end.

(** The value of a member. *)
Fixpoint field (k : string) (ms : list (string * bool)) : option bool :=
  match ms with
  | [] => None
  | (k', b) :: rest => if (k =? k')%string then Some b else field k rest
  end.

End Payload.

Local Close Scope string_scope.

(** ** Order on [float64] values *)

(** [x] is strictly below [y] as IEEE 754 values; it fails when either is not
    a number. *)
Definition fless (x y : float) : Prop := (x ?= y)%float = FLt.

(** [x] lies strictly between [-22.5] and [+22.5]. *)
Definition strictlyWithin45 (x : float) : Prop :=
  fless (-22.5)%float x /\ fless x 22.5%float.

(** ** Concrete settings, faces, frames and instants *)

Module Examples.

Local Open Scope Z_scope.

(** The defaults of the flags: thresholds 0.5, both timeouts 5 s. *)
Definition cfgDefault : Config := mkConfig 0.5%float (5 * Second) (5 * Second).

(** angry-timeout 5 s, watch-timeout 10 s. *)
Definition cfgLongWatch : Config := mkConfig 0.5%float (5 * Second) (10 * Second).

(** angry-timeout 5 s, watch-timeout 2 s. *)
Definition cfgShortWatch : Config := mkConfig 0.5%float (5 * Second) (2 * Second).

(** An instant in the year 2026. *)
Definition t0 : Time := 63902000000 * Second.

Definition seconds (n : Z) : Time := t0 + n * Second.

Definition box : Rectangle := Rect 100 100 200 200.

(** Facing the machine, neutral. *)
Definition faceCalm : Face := mkFace box 3.5%float (-10)%float 0.75%float 0.

(** Facing the machine, angry. *)
Definition faceAngry : Face := mkFace box 3.5%float (-10)%float 0.75%float 4.

(** Turned away by 40 degrees, neutral. *)
Definition faceAway : Face := mkFace box 40%float 0%float 0.75%float 0.

(** Turned away by 40 degrees, angry. *)
Definition faceAwayAngry : Face := mkFace box 40%float 0%float 0.75%float 4.

(** Yaw exactly on the bound. *)
Definition faceOnBound : Face := mkFace box 22.5%float 0%float 0.75%float 0.

(** A face whose rectangle sticks out of a 640 x 480 frame. *)
Definition faceOutside : Face := mkFace (Rect 600 100 700 200) 0%float 0%float 0.75%float 4.

Definition frameOf (fs : list Face) : Frame := mkFrame 640 480 fs.

(** No face found. *)
Definition frameEmpty : Frame := frameOf [].

(** An operator that was angry and watching on the previous cycle, angry
    since [t0]. *)
Definition operatorAngry : Operator :=
  mkOperator (mkStatus true true false) (mkStatus true true false) zeroTime t0.

(** Two frames six seconds apart, the operator turned away and angry on
    both. *)
Definition runAwayAngry : list (Frame * Clock) :=
  [(frameOf [faceAwayAngry], tick (seconds 0));
   (frameOf [faceAwayAngry], tick (seconds 6))].

(** The result of the second cycle of [runAwayAngry]. *)
Definition resultBothAlerts : Result :=
  mkResult (Some (mkStatus false true true)) true true.

(** Angry on consecutive frames, with and without a frame in between on
    which no face is found. *)
Definition runAngryGap : list (Frame * Clock) :=
  [(frameOf [faceAngry], tick (seconds 0));
   (frameOf [faceAngry], tick (seconds 2));
   (frameEmpty, tick (seconds 4));
   (frameOf [faceAngry], tick (seconds 6))].

Definition runAngryNoGap : list (Frame * Clock) :=
  [(frameOf [faceAngry], tick (seconds 0));
   (frameOf [faceAngry], tick (seconds 2));
   (frameOf [faceAngry], tick (seconds 6))].

(** Watching at 0 s, no face at 1 s, turned away at 2 s. *)
Definition runLookAway : list (Frame * Clock) :=
  [(frameOf [faceCalm], tick (seconds 0));
   (frameEmpty, tick (seconds 1));
   (frameOf [faceAway], tick (seconds 2))].

End Examples.

(** ** Enumerations *)

Local Open Scope string_scope.

(** [Sentiment] is an [int]; the named values count from 1. *)
Definition Sentiment := Z.

Definition NEUTRAL : Sentiment := 1.
Definition HAPPY : Sentiment := 2.
Definition SAD : Sentiment := 3.
Definition SURPRISED : Sentiment := 4.
Definition ANGRY : Sentiment := 5.
Definition UNKNOWN : Sentiment := 6.

(** [Sentiment.String] *)
Definition Sentiment_String (s : Sentiment) : string :=
  if (s =? NEUTRAL)%Z then "NEUTRAL"
  else if (s =? HAPPY)%Z then "HAPPY"
  else if (s =? SAD)%Z then "SAD"
  else if (s =? SURPRISED)%Z then "SURPRISED"
  else if (s =? ANGRY)%Z then "ANGRY"
  else "UNKNOWN".

(** ** Command line *)

(** The path flags after [flag.Parse()]. *)
Record Flags := mkFlags {
  faceModel : string;
  faceConfig : string;
  sentModel : string;
  sentConfig : string;
  poseModel : string;
  poseConfig : string
}.

Definition isEmpty (s : string) : bool := (s =? EmptyString)%string.

(** [parseCliFlags] after [flag.Parse()]: [None] is the nil error, [Some] the
    text of the error built by [fmt.Errorf]. *)
Definition parseCliFlags (f : Flags) : option string :=
  if isEmpty (faceModel f) then
    Some ("Invalid path to .bin file of face detection model: " ++ faceModel f)
  else if isEmpty (faceConfig f) then
    Some ("Invalid path to .xml file of face model configuration: " ++ faceConfig f)
  else if isEmpty (sentModel f) then
    Some ("Invalid path to .bin file of sentiment detection model: " ++ sentModel f)
  else if isEmpty (sentConfig f) then
    Some ("Invalid path to .xml file of sentiment model configuration: " ++ sentConfig f)
  else if isEmpty (poseModel f) then
    Some ("Invalid path to .bin file of pose detection model: " ++ poseModel f)
  else if isEmpty (poseConfig f) then
    Some ("Invalid path to .xml file of pose model configuration: " ++ poseConfig f)
  else None.

(** The six required paths in the order [parseCliFlags] tests them, each with
    the text its error starts with. *)
Definition requiredPaths (f : Flags) : list (string * string) :=
  [(faceModel f, "Invalid path to .bin file of face detection model: ");
   (faceConfig f, "Invalid path to .xml file of face model configuration: ");
   (sentModel f, "Invalid path to .bin file of sentiment detection model: ");
   (sentConfig f, "Invalid path to .xml file of sentiment model configuration: ");
   (poseModel f, "Invalid path to .bin file of pose detection model: ");
   (poseConfig f, "Invalid path to .xml file of pose model configuration: ")].

Local Close Scope string_scope.

(** ** Face detection: [detectFaces] *)

(** [detectFaces] on the output blob of the face network, read as a flat
    sequence of [float32] values, seven per detection.  [toPixel v n] stands
    for [int(v * float32(n))].  Each turn of the loop reads the confidence at
    offset 2 and, only when it is above the threshold, the corners at offsets
    3 to 6; then it moves on by seven.  [None] is a read past the end of the
    blob. *)
Fixpoint detectFaces (toPixel : float -> Z -> Z) (faceConfidence : float)
         (cols rows : Z) (results : list float) : option (list Rectangle) :=
  match results with
  | [] => Some []
  | _ :: _ :: conf :: corners =>
      if (faceConfidence <? conf)%float then
        match corners with
        | x0 :: y0 :: x1 :: y1 :: rest =>
            match detectFaces toPixel faceConfidence cols rows rest with
            | Some found =>
                Some (Rect (toPixel x0 cols) (toPixel y0 rows)
                           (toPixel x1 cols) (toPixel y1 rows) :: found)
            | None => None
            end
        | _ => None
        end
      else
        match corners with
        | _ :: _ :: _ :: _ :: rest => detectFaces toPixel faceConfidence cols rows rest
        | _ => Some []
        end
  | _ => None
  end.

(** The confidences of the complete detections of a blob, one every seven
    values. *)
Fixpoint confidences (results : list float) : list float :=
  match results with
  | _ :: _ :: conf :: _ :: _ :: _ :: _ :: rest => conf :: confidences rest
  | _ => []
  end.

(** ** The performance sample of a cycle *)

(** What [frameRunner] sends on [perfChan] for a frame. *)
Definition cyclePerf (cfg : Config) (engine : Profile) (img : Frame) : Perf * list Net :=
  getPerformanceInfo engine (checked (detectStatus cfg img)).

(** ** The current snapshot over a run *)

(** The flags of the latest checked outcome among [frames], or [start] when
    none is checked. *)
Definition latestChecked (cfg : Config) (start : bool * bool)
           (frames : list (Frame * Clock)) : bool * bool :=
  fold_left (fun acc x =>
               if checked (outcome cfg x)
               then (IsWatching (outcome cfg x), IsAngry (outcome cfg x))
               else acc)
            frames start.

(** ** The publish worker: [messageRunner] *)

(** What the worker observes at one turn of its loop: the ticker fires and the
    receive that follows delivers [next] ([None]: no result ever arrives) and
    [Publish] returns [err]; or a result arrives between ticks; or the stop
    signal is seen. *)
Inductive RunnerEvent :=
| onTicker (next : option Result) (err : option string)
| onPub (r : Result)
| onDone.

(** How far the worker got: it returned, it is blocked in the receive after a
    tick, it panicked, or it is still in its loop. *)
Inductive RunnerEnd :=
| Returned
| Blocked
| PanicNewTicker
| PanicNilStatus
| Serving.

(** What the worker did: the messages handed to [Publish], the lines printed,
    and how far it got. *)
Record RunnerLog := mkRunnerLog {
  published : list (string * string);
  printed : list string;
  ending : RunnerEnd
}.

Local Open Scope string_scope.

Definition newline : string := String "010"%char EmptyString.

(** The loop of [messageRunner]. *)
Fixpoint messageLoop (topic : string) (events : list RunnerEvent) : RunnerLog :=
  match events with
  | [] => mkRunnerLog [] [] Serving
  | onDone :: _ =>
      mkRunnerLog [] ["Stopping messageRunner: received stop sginal" ++ newline] Returned
  | onPub _ :: rest => messageLoop topic rest
  | onTicker None _ :: _ => mkRunnerLog [] [] Blocked
  | onTicker (Some r) err :: rest =>
      match ToMQTTMessage r with
      | None => mkRunnerLog [] [] PanicNilStatus
      | Some payload =>
          let log := messageLoop topic rest in
          let line :=
            match err with
            | Some e => ["Error publishing message to " ++ topic ++ ": " ++ e]
            | None => []
            end in
          mkRunnerLog ((topic, payload) :: published log) (line ++ printed log) (ending log)
      end
  end.

Local Close Scope string_scope.

(** A 64-bit signed integer after wrap-around. *)
Definition wrapInt64 (z : Z) : Z := (z + 2 ^ 63) mod 2 ^ 64 - 2 ^ 63.

(** [messageRunner]: [time.NewTicker] panics on an interval that is not
    positive. *)
Definition messageRunner (topic : string) (rate : Z) (events : list RunnerEvent)
  : RunnerLog :=
  let interval := wrapInt64 (rate * Second) in
  if interval <=? 0 then mkRunnerLog [] [] PanicNewTicker
  else messageLoop topic events.

(** The results the worker receives from [pubChan], in order. *)
Fixpoint received (events : list RunnerEvent) : list Result :=
  match events with
  | [] => []
  | onTicker (Some r) _ :: rest => r :: received rest
  | onTicker None _ :: rest => received rest
  | onPub r :: rest => r :: received rest
  | onDone :: rest => received rest
  end.

(** The same observations with every [Publish] succeeding. *)
Definition withoutErrors (events : list RunnerEvent) : list RunnerEvent :=
  map (fun e => match e with
                | onTicker next _ => onTicker next None
                | other => other
                end) events.

(** [l1] is [l2] with some elements left out. *)
Inductive subseq {A : Type} : list A -> list A -> Prop :=
| subseq_nil : subseq [] []
| subseq_skip x l1 l2 : subseq l1 l2 -> subseq l1 (x :: l2)
| subseq_take x l1 l2 : subseq l1 l2 -> subseq (x :: l1) (x :: l2).

(** ** The loop of [main] *)

(** What one turn of the loop labelled monitor meets: whether the source
    delivers a frame, whether the frame is empty, the branch its [select]
    takes and the key [WaitKey] returns. *)
Record Iteration := mkIteration {
  readOk : bool;
  imgEmpty : bool;
  selected : SelectCase;
  keyPressed : Z
}.

(** Why the loop was left, or that it is still running. *)
Inductive LoopEnd :=
| SourceEnded
| Interrupted
| EscPressed
| StillRunning.

(** The loop labelled monitor from the result and sample [main] holds: the
    number of frames sent on [framesChan], the overlays drawn, and how the
    loop ended.  The send on [framesChan] is taken to go through. *)
Fixpoint monitorLoop (result : Result) (perf : Perf) (its : list Iteration)
  : nat * list Overlay * LoopEnd :=
  match its with
  | [] => (O, [], StillRunning)
  | it :: rest =>
      if negb (readOk it) then (O, [], SourceEnded)
      else if imgEmpty it then monitorLoop result perf rest
      else
        match monitorStep result perf (selected it) with
        | None => (1%nat, [], Interrupted)
        | Some (result', perf', overlay) =>
            if keyPressed it =? 27 then (1%nat, [overlay], EscPressed)
            else
              let '(n, overlays, e) := monitorLoop result' perf' rest in
              (S n, overlay :: overlays, e)
        end
  end.

(** The results the loop receives from [resultsChan]. *)
Definition resultsSeen (its : list Iteration) : list Result :=
  flat_map (fun it => match selected it with
                      | caseResult r _ => [r]
                      | _ => []
                      end) its.

(** ** Edges into not watching *)



(** The results the loop of [main] receives from [resultsChan]: those of
    the turns that reach the [select]. *)
Definition resultsReceived (its : list Iteration) : list Result :=
  flat_map (fun it => if readOk it && negb (imgEmpty it)
                      then match selected it with
                           | caseResult r _ => [r]
                           | _ => []
                           end
                      else []) its.

(** What the loop draws while it holds [r]. *)
Definition overlayOf (r : Result) : Overlay :=
  mkOverlay (Result_String r) (AlertWatching r) (AlertAngry r).

(** ** More concrete inputs *)

Module Scenarios.

Local Open Scope Z_scope.

(** A value rounded to [float32]. *)
Definition toFloat32 (x : spec_float) : spec_float :=
  match x with
  | S754_finite s m e => binary_round 24 128 s m e
  | other => other
  end.

(** [float32(n)] for an [int]. *)
Definition float32_of_int (n : Z) : spec_float := binary_normalize 24 128 n 0 false.

(** [int(x)] for a [float32]: the integer part, towards zero.  For a value
    that is not a number or does not fit in 64 bits the result depends on
    the platform; this is the one amd64 gives. *)
Definition int_of_float32 (x : spec_float) : Z :=
  match x with
  | S754_zero _ => 0
  | S754_finite s m e =>
      let mag := if 0 <=? e then Z.pos m * 2 ^ e else Z.pos m / 2 ^ (- e) in
      let v := if s then - mag else mag in
      if (- 2 ^ 63 <=? v) && (v <? 2 ^ 63) then v else - 2 ^ 63
  | _ => - 2 ^ 63
  end.

(** [int(v * float32(n))], the product taken in [float32]. *)
Definition toPixel (v : float) (n : Z) : Z :=
  int_of_float32 (SFmul 24 128 (toFloat32 (Prim2SF v)) (float32_of_int n)).

(** Three detections: confidence 0.75 with corners (0.25, 0.25) and
    (0.5, 0.5); confidence 0.25 with corners (0, 0) and (1, 1); confidence
    0.75 with corners (0.1, 0.1) and (0.7, 0.7). *)
Definition blob : list float :=
  [0; 1; 0.75; 0.25; 0.25; 0.5; 0.5;
   0; 1; 0.25; 0; 0; 1; 1;
   0; 1; 0.75; 0x1.99999ap-4; 0x1.99999ap-4; 0x1.666666p-1; 0x1.666666p-1]%float.

(** A blob cut short inside a detection above the threshold 0.5. *)
Definition blobCut : list float := [0; 1; 0.75; 0.25]%float.

(** A blob cut short inside a detection below the threshold 0.5. *)
Definition blobCutBelow : list float := [0; 1; 0.25; 0.25]%float.

Definition flagsAll : Flags :=
  mkFlags "face.bin" "face.xml" "sent.bin" "sent.xml" "pose.bin" "pose.xml".

(** The sentiment model path is missing, and so is the pose configuration. *)
Definition flagsNoSent : Flags :=
  mkFlags "face.bin" "face.xml" EmptyString "sent.xml" "pose.bin" EmptyString.

Definition resultCalm : Result := mkResult (Some (mkStatus true false true)) false false.

(** Watching at 0 s, then turned away from 1 s on, one frame a second. *)
Definition runTurnAway : list (Frame * Clock) :=
  [(Examples.frameOf [Examples.faceCalm], tick (Examples.seconds 0));
   (Examples.frameOf [Examples.faceAway], tick (Examples.seconds 1));
   (Examples.frameOf [Examples.faceAway], tick (Examples.seconds 2));
   (Examples.frameOf [Examples.faceAway], tick (Examples.seconds 3))].



(** Two turns of the loop of [main]: nothing received on the first, a result
    with both alerts received on the second. *)
Definition turnsReceive : list Iteration :=
  [mkIteration true false caseDefault 0;
   mkIteration true false (caseResult Examples.resultBothAlerts new_Perf) 0].

(** What the second turn of [turnsReceive] draws. *)
Definition overlayBothAlerts : Overlay :=
  mkOverlay (Result_String Examples.resultBothAlerts) true true.

End Scenarios.

(** * Properties *)

(** ** Time *)

Lemma Sub_exact (t u : Time) :
  minDuration <= t - u <= maxDuration -> Sub t u = t - u.
Proof.
  intros [Hlo Hhi]. unfold Sub.
  destruct (Z.ltb_spec (t - u) minDuration); [lia|].
  destruct (Z.ltb_spec maxDuration (t - u)); [lia|reflexivity].
Qed.

Lemma Sub_range (t u : Time) : minDuration <= Sub t u <= maxDuration.
Proof.
  unfold Sub.
  destruct (Z.ltb_spec (t - u) minDuration);
    [|destruct (Z.ltb_spec maxDuration (t - u))];
    unfold minDuration, maxDuration in *; lia.
Qed.

(** ** Floats *)

Lemma ltb_fless (x y : float) : (x <? y)%float = true <-> fless x y.
Proof.
  unfold fless. rewrite ltb_spec, compare_spec. unfold SFltb.
  destruct (SFcompare (Prim2SF x) (Prim2SF y)) as [[ | | ]|]; cbn;
    split; intros H; try reflexivity; discriminate H.
Qed.

Lemma within45_spec (x : float) : within45 x = true <-> strictlyWithin45 x.
Proof.
  unfold within45, strictlyWithin45.
  rewrite andb_true_iff, !ltb_fless. reflexivity.
Qed.

(** ** Detection *)

Section Detection.

Variable cfg : Config.
Variable img : Frame.

Lemma classifyFace_IsWatching (s : Status) (f : Face) :
  IsWatching (classifyFace cfg s f) = IsWatching s || IsWatching (classifyAlone cfg f).
Proof.
  unfold classifyAlone, classifyFace.
  destruct (within45 (angle_y_fc f) && within45 (angle_p_fc f));
    destruct (sentConfidence cfg <? confidence f)%float;
    destruct (maxLoc_Y f =? 4); cbn;
    now rewrite ?orb_true_r, ?orb_false_r.
Qed.

Lemma classifyFace_IsAngry (s : Status) (f : Face) :
  IsAngry (classifyFace cfg s f) = IsAngry s || IsAngry (classifyAlone cfg f).
Proof.
  unfold classifyAlone, classifyFace.
  destruct (within45 (angle_y_fc f) && within45 (angle_p_fc f));
    destruct (sentConfidence cfg <? confidence f)%float;
    destruct (maxLoc_Y f =? 4); cbn;
    now rewrite ?orb_true_r, ?orb_false_r.
Qed.

Lemma classifyFace_checked (s : Status) (f : Face) :
  checked (classifyFace cfg s f) = true.
Proof. reflexivity. Qed.

(** The loop of [detectStatus] from any accumulated status. *)
Lemma detect_loop (fs : list Face) (s : Status) :
  let s' := fold_left (detectStep cfg img) fs s in
  let valid := filter (insideFrame img) fs in
  IsWatching s' = IsWatching s || existsb (fun f => IsWatching (classifyAlone cfg f)) valid /\
  IsAngry s' = IsAngry s || existsb (fun f => IsAngry (classifyAlone cfg f)) valid /\
  checked s' = checked s || negb (Nat.eqb (List.length valid) 0).
Proof.
  revert s. induction fs as [|f fs IH]; intros s; cbn zeta.
  - cbn. now rewrite !orb_false_r.
  - cbn [fold_left filter].
    destruct (IH (detectStep cfg img s f)) as (Hw & Ha & Hc).
    rewrite Hw, Ha, Hc. unfold detectStep.
    destruct (insideFrame img f); cbn [negb existsb List.length Nat.eqb].
    + rewrite classifyFace_IsWatching, classifyFace_IsAngry, classifyFace_checked.
      rewrite <- !orb_assoc, orb_true_r. auto.
    + auto.
Qed.

End Detection.

(** C4, as amended: [detectStatus] processes every face that lies completely
    inside the frame and accumulates over them.  The outcome is watching when
    at least one such face alone is classified watching, angry when at least
    one such face alone is classified angry, and checked when there is at
    least one such face. *)
Theorem detectStatus_accumulates (cfg : Config) (img : Frame) :
  let valid := filter (insideFrame img) (faces img) in
  let s := detectStatus cfg img in
  IsWatching s = existsb (fun f => IsWatching (classifyAlone cfg f)) valid /\
  IsAngry s = existsb (fun f => IsAngry (classifyAlone cfg f)) valid /\
  checked s = negb (Nat.eqb (List.length valid) 0).
Proof.
  exact (detect_loop cfg img (faces img) new_Status).
Qed.

(** C4 fails as stated: with a face turned to the machine followed by a face
    turned away, both inside the frame, the outcome is watching although the
    last face alone is classified not watching. *)
Lemma detectStatus_not_last_face :
  let img := Examples.frameOf [Examples.faceCalm; Examples.faceAway] in
  filter (insideFrame img) (faces img) = [Examples.faceCalm; Examples.faceAway] /\
  detectStatus Examples.cfgDefault img = mkStatus true false true /\
  classifyAlone Examples.cfgDefault Examples.faceAway = mkStatus false false true.
Proof.
  cbv zeta. repeat split; vm_compute; reflexivity.
Qed.

(** A face that is not completely inside the frame is skipped: alone it
    leaves the outcome unchecked, and after a valid face it changes nothing. *)
Example outside_face_is_skipped :
  insideFrame (Examples.frameOf []) Examples.faceOutside = false /\
  detectStatus Examples.cfgDefault (Examples.frameOf [Examples.faceOutside]) = new_Status /\
  detectStatus Examples.cfgDefault (Examples.frameOf [Examples.faceCalm; Examples.faceOutside]) =
  mkStatus true false true.
Proof. repeat split; vm_compute; reflexivity. Qed.

(** An outcome that is watching or angry is checked. *)
Lemma detectStatus_flag_checked (cfg : Config) (img : Frame) :
  IsWatching (detectStatus cfg img) || IsAngry (detectStatus cfg img) = true ->
  checked (detectStatus cfg img) = true.
Proof.
  destruct (detect_loop cfg img (faces img) new_Status) as (Hw & Ha & Hc).
  cbv zeta in Hw, Ha, Hc. unfold detectStatus. rewrite Hw, Ha, Hc. cbn.
  destruct (filter (insideFrame img) (faces img)); cbn; [discriminate|reflexivity].
Qed.

(** An outcome that is not checked has both flags false. *)
Lemma detectStatus_unchecked (cfg : Config) (img : Frame) :
  checked (detectStatus cfg img) = false ->
  detectStatus cfg img = new_Status.
Proof.
  intros Hc. pose proof (detectStatus_flag_checked cfg img) as H.
  destruct (detectStatus cfg img) as [w a c]; cbn in *; subst c.
  destruct w, a; cbn in H; try (specialize (H eq_refl); discriminate H); reflexivity.
Qed.

(** C7, as amended: after a face is processed the watching flag is true
    exactly when it was already true, set by an earlier face of the frame, or
    the yaw (angle_y_fc) and the pitch (angle_p_fc) of this face both lie
    strictly between -22.5 and +22.5. *)
Theorem pose_sets_watching (cfg : Config) (s : Status) (f : Face) :
  IsWatching (classifyFace cfg s f) = true <->
  IsWatching s = true \/
  (strictlyWithin45 (angle_y_fc f) /\ strictlyWithin45 (angle_p_fc f)).
Proof.
  rewrite classifyFace_IsWatching, orb_true_iff.
  rewrite <- !within45_spec, <- andb_true_iff.
  unfold classifyAlone, classifyFace.
  destruct (within45 (angle_y_fc f) && within45 (angle_p_fc f));
    destruct (sentConfidence cfg <? confidence f)%float;
    destruct (maxLoc_Y f =? 4); cbn; tauto.
Qed.

(** C7 fails as stated: in the frame with a face turned to the machine
    followed by a face turned away by 40 degrees, the flag is true after the
    second face is processed although its yaw is not within the bounds. *)
Lemma watching_kept_after_face_out_of_range :
  let s := classifyFace Examples.cfgDefault new_Status Examples.faceCalm in
  IsWatching s = true /\
  IsWatching (classifyFace Examples.cfgDefault s Examples.faceAway) = true /\
  within45 (angle_y_fc Examples.faceAway) = false /\
  ~ strictlyWithin45 (angle_y_fc Examples.faceAway) /\
  detectStatus Examples.cfgDefault (Examples.frameOf [Examples.faceCalm; Examples.faceAway]) =
  classifyFace Examples.cfgDefault s Examples.faceAway.
Proof.
  cbv zeta. repeat split; try (vm_compute; reflexivity).
  intros H. apply within45_spec in H. vm_compute in H. discriminate H.
Qed.

(** For the first face processed in a frame, the flag is turned on exactly
    when both angles lie strictly between -22.5 and +22.5. *)
Lemma pose_sets_watching_iff_within45 (cfg : Config) (s : Status) (f : Face) :
  IsWatching s = false ->
  (IsWatching (classifyFace cfg s f) = true <->
   strictlyWithin45 (angle_y_fc f) /\ strictlyWithin45 (angle_p_fc f)).
Proof.
  intros Hs. rewrite classifyFace_IsWatching, Hs, orb_false_l.
  rewrite <- !within45_spec, <- andb_true_iff.
  unfold classifyAlone, classifyFace.
  destruct (within45 (angle_y_fc f) && within45 (angle_p_fc f));
    destruct (sentConfidence cfg <? confidence f)%float;
    destruct (maxLoc_Y f =? 4); cbn; tauto.
Qed.

Lemma pose_sets_watching_witness :
  strictlyWithin45 (angle_y_fc Examples.faceCalm) /\
  strictlyWithin45 (angle_p_fc Examples.faceCalm).
Proof.
  apply (pose_sets_watching_iff_within45 Examples.cfgDefault new_Status Examples.faceCalm).
  - reflexivity.
  - vm_compute. reflexivity.
Defined.

(** A yaw exactly on the bound does not count as watching, nor does a value
    that is not a number. *)
Example bound_is_excluded :
  IsWatching (classifyAlone Examples.cfgDefault Examples.faceOnBound) = false /\
  within45 nan = false.
Proof. split; vm_compute; reflexivity. Qed.

(** ** Performance sample *)

(** C10: with [statusChecked = false] the sample has [SentNet = 0] and
    [PoseNet = 0], only the face network is queried, and [FaceNet] is the
    face detector's profile divided by the ticks per millisecond. *)
Theorem getPerformanceInfo_unchecked (engine : Profile) :
  let p := fst (getPerformanceInfo engine false) in
  let queried := snd (getPerformanceInfo engine false) in
  SentNet p = 0%float /\ PoseNet p = 0%float /\
  queried = [faceNet] /\
  FaceNet p = (GetPerfProfile engine faceNet / (GetTickFrequency engine / 1000))%float.
Proof.
  unfold getPerformanceInfo; cbn. repeat split.
Qed.

(** On a checked status the three figures are read. *)
Lemma getPerformanceInfo_checked (engine : Profile) :
  let freq := (GetTickFrequency engine / 1000)%float in
  getPerformanceInfo engine true =
  (mkPerf (GetPerfProfile engine faceNet / freq)
          (GetPerfProfile engine sentNet / freq)
          (GetPerfProfile engine poseNet / freq),
   [faceNet; poseNet; sentNet]).
Proof. reflexivity. Qed.

(** ** One cycle of the tracker *)

Section Cycle.

Variable cfg : Config.
Variables (o : Operator) (st : Status) (clk : Clock).

Let o' := fst (trackCycle cfg o st clk).
Let r := snd (trackCycle cfg o st clk).

Ltac cycle_cases :=
  subst o' r; unfold trackCycle, updateOperator;
  destruct o as [[nw na nc] [pw pa pc] tw ta], st as [w a c];
  destruct c, pw, pa, w, a; cbn; try reflexivity.

Lemma trackCycle_status : status r = Some st.
Proof. cycle_cases. Qed.

Lemma trackCycle_prev :
  prev o' = mkStatus (IsWatching st) (IsAngry st) (checked (prev o)).
Proof. cycle_cases. Qed.

Lemma trackCycle_now :
  now o' = if checked st
           then mkStatus (IsWatching st) (IsAngry st) (checked (now o))
           else now o.
Proof. cycle_cases. Qed.

Lemma trackCycle_timeStoppedWatching :
  timeStoppedWatching o' =
  if checked st && IsWatching (prev o) && negb (IsWatching st)
  then nowStoppedWatching clk else timeStoppedWatching o.
Proof. cycle_cases. Qed.

Lemma trackCycle_timeStartAngry :
  timeStartAngry o' =
  if checked st && negb (IsAngry (prev o)) && IsAngry st
  then nowStartAngry clk else timeStartAngry o.
Proof. cycle_cases. Qed.

Lemma trackCycle_AlertWatching :
  AlertWatching r =
  checked st && negb (IsWatching (prev o)) && negb (IsWatching st) &&
  (Since (sinceStoppedWatching clk) (timeStoppedWatching o) >? watchTimeout cfg).
Proof. cycle_cases. Qed.

Lemma trackCycle_AlertAngry :
  AlertAngry r =
  checked st && IsAngry (prev o) && IsAngry st &&
  (Since (sinceStartAngry clk) (timeStartAngry o) >? watchTimeout cfg).
Proof. cycle_cases. Qed.

End Cycle.

(** ** The frames of a run *)

Lemma frameRunner_app (cfg : Config) (l1 l2 : list (Frame * Clock)) (o : Operator) :
  frameRunner cfg o (l1 ++ l2) =
  (fst (frameRunner cfg (fst (frameRunner cfg o l1)) l2),
   snd (frameRunner cfg o l1) ++ snd (frameRunner cfg (fst (frameRunner cfg o l1)) l2)).
Proof.
  revert o. induction l1 as [|[img clk] l1 IH]; intros o; cbn [app frameRunner].
  - cbn. now destruct (frameRunner cfg o l2).
  - destruct (frameCycle cfg o img clk) as [o1 r1].
    rewrite IH. destruct (frameRunner cfg o1 l1) as [o2 rs]; cbn.
    now destruct (frameRunner cfg o2 l2).
Qed.

Lemma frameRunner_snoc (cfg : Config) (l : list (Frame * Clock)) (x : Frame * Clock)
      (o : Operator) :
  fst (frameRunner cfg o (l ++ [x])) =
  fst (frameCycle cfg (fst (frameRunner cfg o l)) (fst x) (snd x)).
Proof.
  rewrite frameRunner_app; cbn [fst]. destruct x as [img clk]; cbn.
  now destruct (frameCycle cfg (fst (frameRunner cfg o l)) img clk).
Qed.

(** Every result of a run is the result of one cycle from some operator. *)
Lemma frameRunner_result (cfg : Config) (frames : list (Frame * Clock)) (o : Operator)
      (r : Result) :
  In r (snd (frameRunner cfg o frames)) ->
  exists o1 img clk, r = snd (frameCycle cfg o1 img clk).
Proof.
  revert o. induction frames as [|[img clk] rest IH]; intros o; cbn.
  - intros [].
  - destruct (frameCycle cfg o img clk) as [o1 r1] eqn:E.
    destruct (frameRunner cfg o1 rest) as [o2 rs] eqn:E2. cbn.
    intros [<-|Hin].
    + exists o, img, clk. now rewrite E.
    + apply (IH o1). now rewrite E2.
Qed.

(** ** Alerts and the current status *)

(** C6: in every result of the frame worker, [AlertWatching] implies that the
    status is not watching and [AlertAngry] implies that the status is
    angry. *)
Theorem alert_implies_condition (cfg : Config) (o : Operator)
        (frames : list (Frame * Clock)) (r : Result) :
  In r (snd (frameRunner cfg o frames)) ->
  exists s, status r = Some s /\
            (AlertWatching r = true -> IsWatching s = false) /\
            (AlertAngry r = true -> IsAngry s = true).
Proof.
  intros Hin. destruct (frameRunner_result _ _ _ _ Hin) as (o1 & img & clk & ->).
  unfold frameCycle. exists (detectStatus cfg img).
  rewrite trackCycle_status, trackCycle_AlertWatching, trackCycle_AlertAngry.
  split; [reflexivity|].
  destruct (detectStatus cfg img) as [w a c]; cbn.
  split; intros H; repeat (apply andb_prop in H; destruct H as [H ?]).
  - now destruct w.
  - assumption.
Qed.

(** Both alerts are raised on the second frame of [runAwayAngry]. *)
Lemma alert_implies_condition_witness :
  exists s,
    status Examples.resultBothAlerts = Some s /\
    (AlertWatching Examples.resultBothAlerts = true -> IsWatching s = false) /\
    (AlertAngry Examples.resultBothAlerts = true -> IsAngry s = true).
Proof.
  apply (alert_implies_condition Examples.cfgDefault new_Operator Examples.runAwayAngry).
  vm_compute. right. left. reflexivity.
Defined.

(** ** Frames on which nothing is checked *)

(** The cycle of a frame whose outcome is not checked. *)
Lemma frameCycle_unchecked (cfg : Config) (o : Operator) (img : Frame) (clk : Clock) :
  checked (detectStatus cfg img) = false ->
  frameCycle cfg o img clk =
  (mkOperator (now o) (mkStatus false false (checked (prev o)))
              (timeStoppedWatching o) (timeStartAngry o),
   mkResult (Some new_Status) false false).
Proof.
  intros Hc. unfold frameCycle. rewrite (detectStatus_unchecked cfg img Hc).
  reflexivity.
Qed.

(** C2, as amended: a frame whose outcome is not checked leaves the current
    snapshot and both markers as they were and its result carries no alert;
    the previous snapshot is overwritten with the flags of the outcome, both
    false. *)
Theorem unchecked_frame_effect (cfg : Config) (o : Operator) (img : Frame) (clk : Clock) :
  checked (detectStatus cfg img) = false ->
  let o' := fst (frameCycle cfg o img clk) in
  let r := snd (frameCycle cfg o img clk) in
  now o' = now o /\
  timeStoppedWatching o' = timeStoppedWatching o /\
  timeStartAngry o' = timeStartAngry o /\
  AlertWatching r = false /\ AlertAngry r = false /\
  prev o' = mkStatus false false (checked (prev o)).
Proof.
  intros Hc; cbv zeta. rewrite (frameCycle_unchecked cfg o img clk Hc).
  cbn. repeat split.
Qed.

Lemma unchecked_frame_effect_witness :
  let o := Examples.operatorAngry in
  let o' := fst (frameCycle Examples.cfgDefault o Examples.frameEmpty (tick (Examples.seconds 3))) in
  let r := snd (frameCycle Examples.cfgDefault o Examples.frameEmpty (tick (Examples.seconds 3))) in
  now o' = now o /\
  timeStoppedWatching o' = timeStoppedWatching o /\
  timeStartAngry o' = timeStartAngry o /\
  AlertWatching r = false /\ AlertAngry r = false /\
  prev o' = mkStatus false false (checked (prev o)).
Proof.
  apply (unchecked_frame_effect Examples.cfgDefault Examples.operatorAngry
           Examples.frameEmpty (tick (Examples.seconds 3))).
  reflexivity.
Defined.

(** C2 fails as stated: after one angry, watching frame the previous snapshot
    is watching and angry; a frame with no face then resets it. *)
Lemma unchecked_frame_overwrites_prev :
  let o := fst (frameRunner Examples.cfgDefault new_Operator
                  [(Examples.frameOf [Examples.faceAngry], tick Examples.t0)]) in
  let o' := fst (frameCycle Examples.cfgDefault o Examples.frameEmpty
                   (tick (Examples.seconds 3))) in
  checked (detectStatus Examples.cfgDefault Examples.frameEmpty) = false /\
  o = Examples.operatorAngry /\
  prev o = mkStatus true true false /\
  prev o' = mkStatus false false false.
Proof.
  cbv zeta. repeat split; vm_compute; reflexivity.
Qed.

(** C3, as amended: a frame that is not checked does not write the angry
    marker but clears the angry flag of the previous snapshot, so the next
    checked angry frame is a new edge: it records the marker at its own clock
    reading and raises no angry alert. *)
Theorem unchecked_frame_restarts_angry (cfg : Config) (o : Operator)
        (img1 img2 : Frame) (clk1 clk2 : Clock) :
  checked (detectStatus cfg img1) = false ->
  IsAngry (detectStatus cfg img2) = true ->
  let o1 := fst (frameCycle cfg o img1 clk1) in
  let o2 := fst (frameCycle cfg o1 img2 clk2) in
  let r2 := snd (frameCycle cfg o1 img2 clk2) in
  timeStartAngry o1 = timeStartAngry o /\
  IsAngry (prev o1) = false /\
  timeStartAngry o2 = nowStartAngry clk2 /\
  AlertAngry r2 = false.
Proof.
  intros Hc Ha; cbv zeta.
  rewrite (frameCycle_unchecked cfg o img1 clk1 Hc); cbn [fst].
  assert (Hc2 : checked (detectStatus cfg img2) = true)
    by (apply detectStatus_flag_checked; rewrite Ha; apply orb_true_r).
  unfold frameCycle.
  rewrite trackCycle_timeStartAngry, trackCycle_AlertAngry, Hc2, Ha.
  cbn. repeat split.
Qed.

Lemma unchecked_frame_restarts_angry_witness :
  let o := Examples.operatorAngry in
  let o1 := fst (frameCycle Examples.cfgDefault o Examples.frameEmpty (tick (Examples.seconds 4))) in
  let img2 := Examples.frameOf [Examples.faceAngry] in
  let o2 := fst (frameCycle Examples.cfgDefault o1 img2 (tick (Examples.seconds 6))) in
  let r2 := snd (frameCycle Examples.cfgDefault o1 img2 (tick (Examples.seconds 6))) in
  timeStartAngry o1 = timeStartAngry o /\
  IsAngry (prev o1) = false /\
  timeStartAngry o2 = nowStartAngry (tick (Examples.seconds 6)) /\
  AlertAngry r2 = false.
Proof.
  apply (unchecked_frame_restarts_angry Examples.cfgDefault Examples.operatorAngry
           Examples.frameEmpty (Examples.frameOf [Examples.faceAngry])
           (tick (Examples.seconds 4)) (tick (Examples.seconds 6))).
  - reflexivity.
  - vm_compute. reflexivity.
Defined.

(** C3 fails as stated: with both timeouts at 5 s, angry at 0 s and 2 s, no
    face at 4 s and angry again at 6 s, no cycle raises the angry alert and
    the marker ends at 6 s, although 6 s have passed since the edge; without
    the frame at 4 s the cycle at 6 s raises it. *)
Lemma unchecked_frame_loses_angry_alert :
  let run := frameRunner Examples.cfgDefault new_Operator Examples.runAngryGap in
  let run' := frameRunner Examples.cfgDefault new_Operator Examples.runAngryNoGap in
  map AlertAngry (snd run) = [false; false; false; false] /\
  timeStartAngry (fst run) = Examples.seconds 6 /\
  Since (Examples.seconds 6) (Examples.seconds 0) = 6 * Second /\
  angryTimeout Examples.cfgDefault = 5 * Second /\
  map AlertAngry (snd run') = [false; false; true].
Proof.
  cbv zeta. repeat split; vm_compute; reflexivity.
Qed.

(** ** The timeout of the angry alert *)

(** On a checked frame where the operator was and is angry, the alert is
    decided by comparing the time since the marker with [watchTimeout]. *)
Lemma sustained_angry_alert (cfg : Config) (o : Operator) (st : Status) (clk : Clock) :
  checked st = true -> IsAngry (prev o) = true -> IsAngry st = true ->
  AlertAngry (snd (trackCycle cfg o st clk)) =
  (Since (sinceStartAngry clk) (timeStartAngry o) >? watchTimeout cfg).
Proof.
  intros Hc Hp Ha. rewrite trackCycle_AlertAngry, Hc, Hp, Ha. reflexivity.
Qed.

(** C1 on the code: the operator has been angry since [t0] and is angry again
    on a checked frame.  With angry-timeout 5 s and watch-timeout 10 s the
    frame 7 s after the edge raises no angry alert; with angry-timeout 5 s
    and watch-timeout 2 s the frame 3 s after the edge raises it. *)
Theorem angry_alert_compares_watchTimeout :
  let img := Examples.frameOf [Examples.faceAngry] in
  let late := tick (Examples.seconds 7) in
  let early := tick (Examples.seconds 3) in
  IsAngry (prev Examples.operatorAngry) = true /\
  detectStatus Examples.cfgLongWatch img = mkStatus true true true /\
  Since (sinceStartAngry late) (timeStartAngry Examples.operatorAngry) = 7 * Second /\
  (7 * Second >? angryTimeout Examples.cfgLongWatch) = true /\
  AlertAngry (snd (frameCycle Examples.cfgLongWatch Examples.operatorAngry img late)) = false /\
  Since (sinceStartAngry early) (timeStartAngry Examples.operatorAngry) = 3 * Second /\
  (3 * Second >? angryTimeout Examples.cfgShortWatch) = false /\
  AlertAngry (snd (frameCycle Examples.cfgShortWatch Examples.operatorAngry img early)) = true.
Proof.
  cbv zeta. repeat split; vm_compute; reflexivity.
Qed.

(** ** Alerts over a run *)

Section Run.

Variable cfg : Config.




End Run.


Section WatchEdges.

Variable cfg : Config.





End WatchEdges.




(** Before any edge into not watching has occurred the marker is the zero
    time, and the sustained test is measured from it: on the very first
    frame, with the operator turned away, and at 2 s after watching at 0 s
    and no face at 1 s. *)
Example watching_alert_before_any_edge :
  snd (frameRunner Examples.cfgDefault new_Operator
         [(Examples.frameOf [Examples.faceAway], tick Examples.t0)]) =
  [mkResult (Some (mkStatus false false true)) true false] /\
  map (outcome Examples.cfgDefault) Examples.runLookAway =
  [mkStatus true false true; mkStatus false false false; mkStatus false false true] /\
  map AlertWatching (snd (frameRunner Examples.cfgDefault new_Operator Examples.runLookAway)) =
  [false; false; true].
Proof.
  repeat split; vm_compute; reflexivity.
Qed.

(** ** Messages *)

(** C8: the telemetry payload of a result reads back as an object with
    exactly two members, Watching and Angry, holding the two flags of the
    status; the alert flags are not in it. *)
Theorem payload_round_trip (r : Result) (s : Status) :
  status r = Some s ->
  exists payload,
    ToMQTTMessage r = Some payload /\
    Payload.parse payload =
    Some [("Watching"%string, IsWatching s); ("Angry"%string, IsAngry s)].
Proof.
  intros Hs. destruct r as [st w a]; cbn in Hs; subst st.
  destruct s as [[|] [|] c];
    (eexists; split; [reflexivity | vm_compute; reflexivity]).
Qed.

Lemma payload_round_trip_witness :
  exists payload,
    ToMQTTMessage Examples.resultBothAlerts = Some payload /\
    Payload.parse payload = Some [("Watching"%string, false); ("Angry"%string, true)].
Proof.
  apply (payload_round_trip Examples.resultBothAlerts (mkStatus false true true)).
  reflexivity.
Defined.

(** The payload does not depend on the alert flags. *)
Lemma payload_ignores_alerts (s : option Status) (w a w' a' : bool) :
  ToMQTTMessage (mkResult s w a) = ToMQTTMessage (mkResult s w' a').
Proof. reflexivity. Qed.

(** Reading the two members back by name. *)
Lemma payload_fields (r : Result) (s : Status) :
  status r = Some s ->
  exists payload ms,
    ToMQTTMessage r = Some payload /\ Payload.parse payload = Some ms /\
    Payload.field "Watching" ms = Some (IsWatching s) /\
    Payload.field "Angry" ms = Some (IsAngry s) /\
    Payload.field "AlertWatching" ms = None /\
    Payload.field "AlertAngry" ms = None.
Proof.
  intros Hs. destruct r as [st w a]; cbn in Hs; subst st.
  destruct s as [[|] [|] c];
    (do 2 eexists; split; [reflexivity|];
     split; [vm_compute; reflexivity | repeat split]).
Qed.

(** ** The status pointer of a result *)

(** Every result the frame worker sends has a status, so both messages can be
    built from it. *)
Lemma frameRunner_status_set (cfg : Config) (o : Operator)
      (frames : list (Frame * Clock)) (r : Result) :
  In r (snd (frameRunner cfg o frames)) ->
  status r <> None /\ Result_String r <> None /\ ToMQTTMessage r <> None.
Proof.
  intros Hin. destruct (frameRunner_result _ _ _ _ Hin) as (o1 & img & clk & ->).
  unfold Result_String, ToMQTTMessage, frameCycle. rewrite trackCycle_status.
  repeat split; discriminate.
Qed.

(** C9 on the code: the result [main] holds before the first worker result
    arrives is [new(Result)], whose status is nil; an iteration whose
    [select] takes the default branch renders it, and [Result.String]
    dereferences the nil status. *)
Theorem first_render_dereferences_nil :
  status new_Result = None /\
  Result_String new_Result = None /\
  monitorStep new_Result new_Perf caseDefault =
  Some (new_Result, new_Perf, mkOverlay None false false).
Proof.
  repeat split.
Qed.

(** * Further properties of the frame worker *)

Lemma Sub_mono (t t' u : Time) : t <= t' -> Sub t u <= Sub t' u.
Proof.
  intros Hle. unfold Sub.
  destruct (Z.ltb_spec (t - u) minDuration);
    destruct (Z.ltb_spec (t' - u) minDuration);
    destruct (Z.ltb_spec maxDuration (t - u));
    destruct (Z.ltb_spec maxDuration (t' - u));
    unfold minDuration, maxDuration in *; lia.
Qed.

(** X1: the worker sends one result per frame, in the order of the frames,
    and each result carries the outcome of the detection on its frame. *)
Theorem results_follow_frames (cfg : Config) (o : Operator)
        (frames : list (Frame * Clock)) :
  map status (snd (frameRunner cfg o frames)) =
  map (fun x => Some (outcome cfg x)) frames.
Proof.
  revert o. induction frames as [|[img clk] rest IH]; intros o; cbn [frameRunner].
  - reflexivity.
  - destruct (frameCycle cfg o img clk) as [o1 r1] eqn:E.
    specialize (IH o1). destruct (frameRunner cfg o1 rest) as [o2 rs].
    cbn [snd map] in *. rewrite IH. f_equal.
    change r1 with (snd (o1, r1)). rewrite <- E. unfold frameCycle.
    apply trackCycle_status.
Qed.

(** X2: after any run the current snapshot holds the flags of the latest
    checked outcome, or what it held before when no outcome was checked; its
    own checked field is never written. *)
Theorem now_is_latest_checked (cfg : Config) (o : Operator)
        (frames : list (Frame * Clock)) :
  let flags := latestChecked cfg (IsWatching (now o), IsAngry (now o)) frames in
  now (fst (frameRunner cfg o frames)) =
  mkStatus (fst flags) (snd flags) (checked (now o)).
Proof.
  revert o. induction frames as [|[img clk] rest IH]; intros o; cbv zeta.
  - cbn. now destruct (now o).
  - cbn [frameRunner]. destruct (frameCycle cfg o img clk) as [o1 r1] eqn:E.
    specialize (IH o1). cbv zeta in IH.
    destruct (frameRunner cfg o1 rest) as [o2 rs]. cbn [fst] in *.
    rewrite IH. unfold latestChecked; cbn [fold_left].
    change (outcome cfg (img, clk)) with (detectStatus cfg img).
    assert (Hn : now o1 = if checked (detectStatus cfg img)
                          then mkStatus (IsWatching (detectStatus cfg img))
                                        (IsAngry (detectStatus cfg img)) (checked (now o))
                          else now o).
    { change o1 with (fst (o1, r1)). rewrite <- E. apply trackCycle_now. }
    rewrite Hn. destruct (checked (detectStatus cfg img)); reflexivity.
Qed.

(** X3: a cycle that raises an alert does not rewrite the marker that alert
    is measured from: the cycle of an edge never alerts. *)
Theorem alert_keeps_marker (cfg : Config) (o : Operator) (img : Frame) (clk : Clock) :
  let o' := fst (frameCycle cfg o img clk) in
  let r := snd (frameCycle cfg o img clk) in
  (AlertWatching r = true -> timeStoppedWatching o' = timeStoppedWatching o) /\
  (AlertAngry r = true -> timeStartAngry o' = timeStartAngry o).
Proof.
  cbv zeta. unfold frameCycle.
  rewrite trackCycle_AlertWatching, trackCycle_AlertAngry,
    trackCycle_timeStoppedWatching, trackCycle_timeStartAngry.
  destruct (detectStatus cfg img) as [w a c], o as [nw [pw pa pc] tw ta]; cbn.
  destruct c, pw, pa, w, a; cbn; split; intros H; try reflexivity; discriminate H.
Qed.

Lemma alert_keeps_marker_witness :
  let o := fst (frameRunner Examples.cfgDefault new_Operator
                  [(Examples.frameOf [Examples.faceAwayAngry], tick (Examples.seconds 0))]) in
  let img := Examples.frameOf [Examples.faceAwayAngry] in
  let o' := fst (frameCycle Examples.cfgDefault o img (tick (Examples.seconds 6))) in
  timeStoppedWatching o' = timeStoppedWatching o /\
  timeStartAngry o' = timeStartAngry o.
Proof.
  cbv zeta.
  destruct (alert_keeps_marker Examples.cfgDefault
              (fst (frameRunner Examples.cfgDefault new_Operator
                      [(Examples.frameOf [Examples.faceAwayAngry], tick (Examples.seconds 0))]))
              (Examples.frameOf [Examples.faceAwayAngry]) (tick (Examples.seconds 6)))
    as [Hw Ha].
  split; [apply Hw | apply Ha]; vm_compute; reflexivity.
Defined.

Section Streaks.

Variable cfg : Config.

(** After at least one frame, from any operator, the previous snapshot
    carries the flags of the latest outcome. *)
Lemma prev_after_frames (o : Operator) (b : list (Frame * Clock)) (x : Frame * Clock) :
  prev (fst (frameRunner cfg o (b ++ [x]))) =
  mkStatus (IsWatching (outcome cfg x)) (IsAngry (outcome cfg x))
           (checked (prev (fst (frameRunner cfg o b)))).
Proof.
  rewrite frameRunner_snoc. unfold frameCycle. apply trackCycle_prev.
Qed.

(** From a previous snapshot that is watching, a run of frames that are all
    checked and not watching leaves the marker at the reading of the first
    of them. *)
Lemma not_watching_streak (o : Operator) (first : Frame * Clock)
      (streak : list (Frame * Clock)) :
  IsWatching (prev o) = true ->
  Forall (fun x => checked (outcome cfg x) = true /\ IsWatching (outcome cfg x) = false)
         (first :: streak) ->
  let o' := fst (frameRunner cfg o (first :: streak)) in
  IsWatching (prev o') = false /\
  timeStoppedWatching o' = nowStoppedWatching (snd first).
Proof.
  intros Hp. induction streak as [|x streak IH] using rev_ind; intros Hall; cbv zeta.
  - inversion Hall as [|? ? [Hc Hw] _]; subst.
    change [first] with ([] ++ [first]). rewrite frameRunner_snoc. cbn [frameRunner fst].
    unfold frameCycle. rewrite trackCycle_prev, trackCycle_timeStoppedWatching.
    fold (outcome cfg first). rewrite Hc, Hw, Hp. split; reflexivity.
  - rewrite app_comm_cons in Hall. apply Forall_app in Hall. destruct Hall as [Hall Hx].
    inversion Hx as [|? ? [Hc Hw] _]; subst.
    destruct (IH Hall) as [Hprev Ht].
    rewrite app_comm_cons, frameRunner_snoc. unfold frameCycle.
    rewrite trackCycle_prev, trackCycle_timeStoppedWatching.
    fold (outcome cfg x). rewrite Hc, Hw, Hprev, Ht. split; reflexivity.
Qed.

(** From a previous snapshot that is not angry, a run of angry frames leaves
    the marker at the reading of the first of them. *)
Lemma angry_streak_from (o : Operator) (first : Frame * Clock)
      (streak : list (Frame * Clock)) :
  IsAngry (prev o) = false ->
  Forall (fun x => IsAngry (outcome cfg x) = true) (first :: streak) ->
  let o' := fst (frameRunner cfg o (first :: streak)) in
  IsAngry (prev o') = true /\
  timeStartAngry o' = nowStartAngry (snd first).
Proof.
  assert (Hchk : forall x, IsAngry (outcome cfg x) = true -> checked (outcome cfg x) = true).
  { intros x Hx. apply detectStatus_flag_checked. fold (outcome cfg x).
    rewrite Hx. apply orb_true_r. }
  intros Hp. induction streak as [|x streak IH] using rev_ind; intros Hall; cbv zeta.
  - inversion Hall as [|? ? Ha _]; subst.
    change [first] with ([] ++ [first]). rewrite frameRunner_snoc. cbn [frameRunner fst].
    unfold frameCycle. rewrite trackCycle_prev, trackCycle_timeStartAngry.
    fold (outcome cfg first). rewrite (Hchk _ Ha), Ha, Hp. split; reflexivity.
  - rewrite app_comm_cons in Hall. apply Forall_app in Hall. destruct Hall as [Hall Hx].
    inversion Hx as [|? ? Ha _]; subst.
    destruct (IH Hall) as [Hprev Ht].
    rewrite app_comm_cons, frameRunner_snoc. unfold frameCycle.
    rewrite trackCycle_prev, trackCycle_timeStartAngry.
    fold (outcome cfg x). rewrite (Hchk _ Ha), Ha, Hprev, Ht. split; reflexivity.
Qed.

End Streaks.

(** X4: when a watching frame is followed by frames that are all checked and
    not watching, the next checked not-watching frame raises the watching
    alert exactly when the time since the reading taken at the first of them
    strictly exceeds [watchTimeout]; whatever came before the watching frame
    plays no part. *)
Theorem watching_alert_after_edge (cfg : Config) (o0 : Operator)
        (before : list (Frame * Clock)) (w first : Frame * Clock)
        (streak : list (Frame * Clock)) (img : Frame) (clk : Clock) :
  IsWatching (outcome cfg w) = true ->
  Forall (fun x => checked (outcome cfg x) = true /\ IsWatching (outcome cfg x) = false)
         (first :: streak) ->
  checked (detectStatus cfg img) = true ->
  IsWatching (detectStatus cfg img) = false ->
  let o := fst (frameRunner cfg o0 (before ++ w :: first :: streak)) in
  AlertWatching (snd (frameCycle cfg o img clk)) =
  (Since (sinceStoppedWatching clk) (nowStoppedWatching (snd first)) >? watchTimeout cfg).
Proof.
  intros Hw Hall Hc Hn; cbv zeta.
  replace (before ++ w :: first :: streak) with ((before ++ [w]) ++ first :: streak)
    by (rewrite <- app_assoc; reflexivity).
  rewrite frameRunner_app; cbn [fst].
  destruct (not_watching_streak cfg (fst (frameRunner cfg o0 (before ++ [w]))) first streak)
    as [Hprev Ht]; [now rewrite prev_after_frames | assumption |].
  unfold frameCycle. rewrite trackCycle_AlertWatching, Hc, Hn, Hprev, Ht. reflexivity.
Qed.

(** Watching at 0 s, turned away at 1, 2 and 3 s: a frame at 7 s, six seconds
    after the edge, raises the alert. *)
Lemma watching_alert_after_edge_witness :
  let away := Examples.frameOf [Examples.faceAway] in
  let o := fst (frameRunner Examples.cfgDefault new_Operator
                  ([] ++ (Examples.frameOf [Examples.faceCalm], tick (Examples.seconds 0))
                      :: (away, tick (Examples.seconds 1))
                      :: [(away, tick (Examples.seconds 2)); (away, tick (Examples.seconds 3))])) in
  AlertWatching (snd (frameCycle Examples.cfgDefault o away (tick (Examples.seconds 7)))) =
  (Since (Examples.seconds 7) (Examples.seconds 1) >? watchTimeout Examples.cfgDefault) /\
  (Since (Examples.seconds 7) (Examples.seconds 1) >? watchTimeout Examples.cfgDefault) = true.
Proof.
  cbv zeta. split; [|vm_compute; reflexivity].
  apply (watching_alert_after_edge Examples.cfgDefault new_Operator []
           (Examples.frameOf [Examples.faceCalm], tick (Examples.seconds 0))
           (Examples.frameOf [Examples.faceAway], tick (Examples.seconds 1))
           [(Examples.frameOf [Examples.faceAway], tick (Examples.seconds 2));
            (Examples.frameOf [Examples.faceAway], tick (Examples.seconds 3))]
           (Examples.frameOf [Examples.faceAway]) (tick (Examples.seconds 7))).
  - vm_compute; reflexivity.
  - repeat first [apply Forall_nil | apply Forall_cons; [split; vm_compute; reflexivity|]].
  - vm_compute; reflexivity.
  - vm_compute; reflexivity.
Defined.

(** X5: from the start of the worker, when the frames since the latest
    not-angry outcome (or since the start) are all angry, the next angry
    frame raises the angry alert exactly when the time since the reading
    taken at the first of them strictly exceeds the timeout; stated for
    settings whose two timeouts coincide. *)
Theorem angry_alert_after_edge (cfg : Config) (before : list (Frame * Clock))
        (first : Frame * Clock) (streak : list (Frame * Clock))
        (img : Frame) (clk : Clock) :
  angryTimeout cfg = watchTimeout cfg ->
  latestNot IsAngry cfg before ->
  Forall (fun x => IsAngry (outcome cfg x) = true) (first :: streak) ->
  IsAngry (detectStatus cfg img) = true ->
  let o := fst (frameRunner cfg new_Operator (before ++ first :: streak)) in
  AlertAngry (snd (frameCycle cfg o img clk)) =
  (Since (sinceStartAngry clk) (nowStartAngry (snd first)) >? angryTimeout cfg).
Proof.
  intros Heq Hbefore Hall Ha; cbv zeta.
  rewrite frameRunner_app; cbn [fst].
  assert (Hp : IsAngry (prev (fst (frameRunner cfg new_Operator before))) = false).
  { destruct Hbefore as [-> | (b & x & -> & Hx)]; [reflexivity|].
    now rewrite prev_after_frames. }
  destruct (angry_streak_from cfg _ first streak Hp Hall) as [Hprev Ht].
  assert (Hc : checked (detectStatus cfg img) = true)
    by (apply detectStatus_flag_checked; rewrite Ha; apply orb_true_r).
  unfold frameCycle. rewrite trackCycle_AlertAngry, Hc, Ha, Hprev, Ht, Heq. reflexivity.
Qed.

(** Angry at 0 s and 2 s from the start: the angry frame at 6 s raises the
    alert. *)
Lemma angry_alert_after_edge_witness :
  let angry := Examples.frameOf [Examples.faceAngry] in
  let o := fst (frameRunner Examples.cfgDefault new_Operator
                  ([] ++ (angry, tick (Examples.seconds 0))
                      :: [(angry, tick (Examples.seconds 2))])) in
  AlertAngry (snd (frameCycle Examples.cfgDefault o angry (tick (Examples.seconds 6)))) =
  (Since (Examples.seconds 6) (Examples.seconds 0) >? angryTimeout Examples.cfgDefault) /\
  (Since (Examples.seconds 6) (Examples.seconds 0) >? angryTimeout Examples.cfgDefault) = true.
Proof.
  cbv zeta. split; [|vm_compute; reflexivity].
  apply (angry_alert_after_edge Examples.cfgDefault []
           (Examples.frameOf [Examples.faceAngry], tick (Examples.seconds 0))
           [(Examples.frameOf [Examples.faceAngry], tick (Examples.seconds 2))]
           (Examples.frameOf [Examples.faceAngry]) (tick (Examples.seconds 6))).
  - reflexivity.
  - left; reflexivity.
  - repeat first [apply Forall_nil | apply Forall_cons; [vm_compute; reflexivity|]].
  - vm_compute; reflexivity.
Defined.

(** X6: once the watching alert is raised it stays raised on the next frame
    if that frame is checked and still not watching and the clock has not
    gone back. *)
Theorem watching_alert_persists (cfg : Config) (o : Operator)
        (img1 img2 : Frame) (clk1 clk2 : Clock) :
  AlertWatching (snd (frameCycle cfg o img1 clk1)) = true ->
  checked (detectStatus cfg img2) = true ->
  IsWatching (detectStatus cfg img2) = false ->
  sinceStoppedWatching clk1 <= sinceStoppedWatching clk2 ->
  AlertWatching (snd (frameCycle cfg (fst (frameCycle cfg o img1 clk1)) img2 clk2)) = true.
Proof.
  unfold frameCycle. intros H1 Hc2 Hw2 Hclk.
  rewrite trackCycle_AlertWatching, trackCycle_prev, trackCycle_timeStoppedWatching.
  rewrite trackCycle_AlertWatching in H1.
  apply andb_prop in H1 as [H1 Hgt]. apply andb_prop in H1 as [H1 Hw1].
  apply andb_prop in H1 as [Hc1 Hp]. apply negb_true_iff in Hw1, Hp.
  rewrite Hc2, Hw2, Hc1, Hp, Hw1. cbn.
  apply Z.gtb_lt. apply Z.gtb_lt in Hgt.
  pose proof (Sub_mono _ _ (timeStoppedWatching o) Hclk). unfold Since in *. lia.
Qed.

Lemma watching_alert_persists_witness :
  AlertWatching
    (snd (frameCycle Examples.cfgDefault
            (fst (frameCycle Examples.cfgDefault new_Operator
                    (Examples.frameOf [Examples.faceAway]) (tick (Examples.seconds 0))))
            (Examples.frameOf [Examples.faceAway]) (tick (Examples.seconds 1)))) = true.
Proof.
  apply (watching_alert_persists Examples.cfgDefault new_Operator
           (Examples.frameOf [Examples.faceAway]) (Examples.frameOf [Examples.faceAway])
           (tick (Examples.seconds 0)) (tick (Examples.seconds 1))).
  - vm_compute; reflexivity.
  - vm_compute; reflexivity.
  - vm_compute; reflexivity.
  - apply Z.leb_le. vm_compute; reflexivity.
Defined.

(** * Further properties of the detection *)

Lemma existsb_Permutation {A : Type} (p : A -> bool) (l l' : list A) :
  Permutation l l' -> existsb p l = existsb p l'.
Proof.
  induction 1 as [|x l l' _ IH|x y l|l l' l'' _ IH1 _ IH2]; cbn.
  - reflexivity.
  - now rewrite IH.
  - now rewrite !orb_assoc, (orb_comm (p y)).
  - now rewrite IH1.
Qed.

Lemma filter_Permutation {A : Type} (p : A -> bool) (l l' : list A) :
  Permutation l l' -> Permutation (filter p l) (filter p l').
Proof.
  induction 1 as [|x l l' _ IH|x y l|l l' l'' _ IH1 _ IH2]; cbn.
  - constructor.
  - destruct (p x); [now constructor | assumption].
  - destruct (p x), (p y); try reflexivity. constructor.
  - now transitivity (filter p l').
Qed.

(** X7: the outcome of [detectStatus] does not depend on the order in which
    [detectFaces] returns the faces. *)
Theorem detectStatus_order_free (cfg : Config) (cols rows : Z) (fs fs' : list Face) :
  Permutation fs fs' ->
  detectStatus cfg (mkFrame cols rows fs) = detectStatus cfg (mkFrame cols rows fs').
Proof.
  intros Hperm.
  destruct (detect_loop cfg (mkFrame cols rows fs) fs new_Status) as (Hw & Ha & Hc).
  destruct (detect_loop cfg (mkFrame cols rows fs') fs' new_Status) as (Hw' & Ha' & Hc').
  cbn [IsWatching IsAngry checked new_Status orb] in *.
  change (insideFrame (mkFrame cols rows fs')) with (insideFrame (mkFrame cols rows fs)) in *.
  pose proof (filter_Permutation (insideFrame (mkFrame cols rows fs)) _ _ Hperm) as Hf.
  rewrite <- (existsb_Permutation _ _ _ Hf) in Hw'.
  rewrite <- (existsb_Permutation _ _ _ Hf) in Ha'.
  rewrite <- (Permutation_length Hf) in Hc'.
  unfold detectStatus; cbn [faces].
  change (detectStep cfg (mkFrame cols rows fs')) with (detectStep cfg (mkFrame cols rows fs)) in *.
  destruct (fold_left (detectStep cfg (mkFrame cols rows fs)) fs new_Status) as [w a c],
           (fold_left (detectStep cfg (mkFrame cols rows fs)) fs' new_Status) as [w' a' c'].
  cbn in *. congruence.
Qed.

Lemma detectStatus_order_free_witness :
  detectStatus Examples.cfgDefault (mkFrame 640 480 [Examples.faceCalm; Examples.faceAwayAngry]) =
  detectStatus Examples.cfgDefault (mkFrame 640 480 [Examples.faceAwayAngry; Examples.faceCalm]).
Proof.
  apply (detectStatus_order_free Examples.cfgDefault 640 480
           [Examples.faceCalm; Examples.faceAwayAngry]
           [Examples.faceAwayAngry; Examples.faceCalm]).
  apply perm_swap.
Defined.

(** X8: when a face is processed, it turns the angry flag on exactly when the
    largest score of the sentiment network is strictly above the sentiment
    threshold and sits at row 4. *)
Theorem sentiment_sets_angry_iff (cfg : Config) (s : Status) (f : Face) :
  IsAngry s = false ->
  (IsAngry (classifyFace cfg s f) = true <->
   fless (sentConfidence cfg) (confidence f) /\ maxLoc_Y f = 4).
Proof.
  intros Hs. rewrite classifyFace_IsAngry, Hs, orb_false_l.
  rewrite <- ltb_fless, <- Z.eqb_eq, <- andb_true_iff.
  unfold classifyAlone, classifyFace.
  destruct (within45 (angle_y_fc f) && within45 (angle_p_fc f));
    destruct (sentConfidence cfg <? confidence f)%float;
    destruct (maxLoc_Y f =? 4); cbn; tauto.
Qed.

Lemma sentiment_sets_angry_witness :
  fless (sentConfidence Examples.cfgDefault) (confidence Examples.faceAngry) /\
  maxLoc_Y Examples.faceAngry = 4.
Proof.
  apply (sentiment_sets_angry_iff Examples.cfgDefault new_Status Examples.faceAngry).
  - reflexivity.
  - vm_compute. reflexivity.
Defined.

(** X9: in a frame of non-negative size, a face passes the bounds test
    exactly when its rectangle is empty or has its corners between the
    origin and the size of the frame; an empty rectangle passes wherever it
    is. *)
Theorem insideFrame_spec (img : Frame) (f : Face) :
  0 <= Cols img -> 0 <= Rows img ->
  (insideFrame img f = true <->
   Empty (rect f) = true \/
   (0 <= X (Min (rect f)) /\ X (Max (rect f)) <= Cols img /\
    0 <= Y (Min (rect f)) /\ Y (Max (rect f)) <= Rows img)).
Proof.
  intros Hc Hr. unfold insideFrame, In_, Rect.
  destruct (Z.ltb_spec (Cols img) 0); [lia|].
  destruct (Z.ltb_spec (Rows img) 0); [lia|].
  destruct (Empty (rect f)); cbn [Min Max X Y].
  - split; auto.
  - rewrite !andb_true_iff, !Z.leb_le. split.
    + intros (((? & ?) & ?) & ?). right. auto.
    + intros [Hf | (? & ? & ? & ?)]; [discriminate Hf | auto].
Qed.

Lemma insideFrame_spec_witness :
  insideFrame Examples.frameEmpty Examples.faceCalm = true <->
  Empty (rect Examples.faceCalm) = true \/
  (0 <= X (Min (rect Examples.faceCalm)) /\ X (Max (rect Examples.faceCalm)) <= 640 /\
   0 <= Y (Min (rect Examples.faceCalm)) /\ Y (Max (rect Examples.faceCalm)) <= 480).
Proof.
  apply (insideFrame_spec Examples.frameEmpty Examples.faceCalm); cbn; lia.
Defined.

(** X11: the sample sent for a frame reads the pose and sentiment profiles
    exactly when at least one face lies inside the frame; otherwise both
    figures are zero and only the face network is queried. *)
Theorem cyclePerf_reads_when_face_inside (cfg : Config) (engine : Profile) (img : Frame) :
  cyclePerf cfg engine img =
  getPerformanceInfo engine (existsb (insideFrame img) (faces img)).
Proof.
  unfold cyclePerf. f_equal.
  destruct (detect_loop cfg img (faces img) new_Status) as (_ & _ & Hc).
  unfold detectStatus. rewrite Hc. cbn [checked new_Status orb]. clear Hc.
  induction (faces img) as [|f fs IH]; cbn; [reflexivity|].
  destruct (insideFrame img f); cbn; [reflexivity | exact IH].
Qed.

(** * Face detection *)

Lemma Rect_canonical (x0 y0 x1 y1 : Z) :
  X (Min (Rect x0 y0 x1 y1)) <= X (Max (Rect x0 y0 x1 y1)) /\
  Y (Min (Rect x0 y0 x1 y1)) <= Y (Max (Rect x0 y0 x1 y1)).
Proof.
  unfold Rect.
  destruct (Z.ltb_spec x1 x0); destruct (Z.ltb_spec y1 y0); cbn; lia.
Qed.

(** X10: on a blob whose size is a multiple of seven [detectFaces] never
    reads past its end.  Whenever it returns, it returns one rectangle for
    each complete detection whose confidence is strictly above the threshold,
    and every rectangle is canonical (minimum corner before maximum corner)
    whatever the network reports. *)
Theorem detectFaces_spec (toPixel : float -> Z -> Z) (faceConfidence : float)
        (cols rows : Z) (results : list float) :
  ((List.length results mod 7 = 0)%nat ->
   detectFaces toPixel faceConfidence cols rows results <> None) /\
  (forall found,
      detectFaces toPixel faceConfidence cols rows results = Some found ->
      List.length found =
      List.length (filter (fun c => (faceConfidence <? c)%float) (confidences results)) /\
      Forall (fun r => X (Min r) <= X (Max r) /\ Y (Min r) <= Y (Max r)) found).
Proof.
  revert results. fix IH 1.
  intros [|a [|b [|c [|d [|e [|f [|g rest]]]]]]].
  1-7: split;
    [ first [ intros _; discriminate | intros H; cbn in H; discriminate H ]
    | intros found Hf; cbn in Hf;
      try (destruct (faceConfidence <? c)%float);
      first [ discriminate Hf
            | injection Hf as <-; split; [reflexivity | constructor] ] ].
  specialize (IH rest). destruct IH as [IHok IHsome].
  assert (Hlen : (List.length (a :: b :: c :: d :: e :: f :: g :: rest) mod 7 =
                  List.length rest mod 7)%nat).
  { cbn [List.length].
    replace (S (S (S (S (S (S (S (List.length rest))))))))
      with (List.length rest + 1 * 7)%nat by lia.
    apply Nat.Div0.mod_add. }
  rewrite Hlen. cbn [detectFaces confidences filter].
  destruct (faceConfidence <? c)%float;
    destruct (detectFaces toPixel faceConfidence cols rows rest) as [found'|] eqn:Hrest.
  - split; [discriminate|]. intros found Hf. injection Hf as <-.
    destruct (IHsome found' eq_refl) as [Hn Hall]. cbn [List.length]. split.
    + now rewrite Hn.
    + constructor; [apply Rect_canonical | exact Hall].
  - split; [exact IHok | intros found Hf; discriminate Hf].
  - split; [discriminate|]. intros found Hf. injection Hf as <-. now apply IHsome.
  - split; [exact IHok | intros found Hf; discriminate Hf].
Qed.

Lemma detectFaces_spec_witness :
  List.length [Rect 160 120 320 240; Rect 64 48 448 336] =
  List.length (filter (fun c => (0.5 <? c)%float) (confidences Scenarios.blob)) /\
  Forall (fun r => X (Min r) <= X (Max r) /\ Y (Min r) <= Y (Max r))
         [Rect 160 120 320 240; Rect 64 48 448 336].
Proof.
  apply (proj2 (detectFaces_spec Scenarios.toPixel 0.5%float 640 480 Scenarios.blob)).
  vm_compute. reflexivity.
Defined.

(** With threshold 0.5 in a 640 x 480 frame: of three detections the first
    and the third are kept; a blob cut short inside a detection above the
    threshold is read past its end, one cut short inside a detection below
    the threshold is not. *)
Example detectFaces_blob :
  detectFaces Scenarios.toPixel 0.5%float 640 480 Scenarios.blob =
  Some [Rect 160 120 320 240; Rect 64 48 448 336] /\
  detectFaces Scenarios.toPixel 0.5%float 640 480 Scenarios.blobCut = None /\
  detectFaces Scenarios.toPixel 0.5%float 640 480 Scenarios.blobCutBelow = Some [] /\
  detectFaces Scenarios.toPixel 0.5%float 640 480 [] = Some [].
Proof. repeat split; vm_compute; reflexivity. Qed.

(** * Enumerations and the command line *)

(** X12: the five named emotions print five different names, and no other
    value of [Sentiment] prints one of them. *)
Theorem Sentiment_String_injective (s s' : Sentiment) :
  NEUTRAL <= s <= ANGRY ->
  Sentiment_String s = Sentiment_String s' -> s = s'.
Proof.
  unfold NEUTRAL, ANGRY. intros Hs.
  assert (Hcases : s = 1 \/ s = 2 \/ s = 3 \/ s = 4 \/ s = 5) by lia.
  unfold Sentiment_String, NEUTRAL, HAPPY, SAD, SURPRISED, ANGRY.
  destruct (Z.eqb_spec s' 1); destruct (Z.eqb_spec s' 2); destruct (Z.eqb_spec s' 3);
    destruct (Z.eqb_spec s' 4); destruct (Z.eqb_spec s' 5); try lia;
    destruct Hcases as [-> | [-> | [-> | [-> | ->]]]]; cbn;
    intros H; try discriminate H; congruence.
Qed.

Lemma Sentiment_String_injective_witness :
  ANGRY = 5.
Proof.
  apply (Sentiment_String_injective ANGRY 5).
  - unfold NEUTRAL, ANGRY. lia.
  - reflexivity.
Defined.

(** Every value that is not one of the five named emotions prints as
    UNKNOWN. *)
Lemma Sentiment_String_default (s : Sentiment) :
  ~ (NEUTRAL <= s <= ANGRY) -> Sentiment_String s = "UNKNOWN"%string.
Proof.
  unfold Sentiment_String, NEUTRAL, HAPPY, SAD, SURPRISED, ANGRY. intros Hs.
  destruct (Z.eqb_spec s 1); destruct (Z.eqb_spec s 2); destruct (Z.eqb_spec s 3);
    destruct (Z.eqb_spec s 4); destruct (Z.eqb_spec s 5); try lia; reflexivity.
Qed.

Lemma isEmpty_spec (s : string) : isEmpty s = true <-> s = EmptyString.
Proof. unfold isEmpty. apply String.eqb_eq. Qed.

(** X13: [parseCliFlags] returns no error exactly when none of the six model
    and configuration paths is empty. *)
Theorem parseCliFlags_accepts_iff (f : Flags) :
  parseCliFlags f = None <->
  Forall (fun p => fst p <> EmptyString) (requiredPaths f).
Proof.
  unfold parseCliFlags, requiredPaths. split.
  - intros H.
    destruct (isEmpty (faceModel f)) eqn:E1; [discriminate H|].
    destruct (isEmpty (faceConfig f)) eqn:E2; [discriminate H|].
    destruct (isEmpty (sentModel f)) eqn:E3; [discriminate H|].
    destruct (isEmpty (sentConfig f)) eqn:E4; [discriminate H|].
    destruct (isEmpty (poseModel f)) eqn:E5; [discriminate H|].
    destruct (isEmpty (poseConfig f)) eqn:E6; [discriminate H|].
    repeat constructor; cbn [fst]; intros Hs; apply isEmpty_spec in Hs; congruence.
  - intros H. repeat match goal with
                     | H : Forall _ (_ :: _) |- _ => inversion H; clear H; subst
                     end.
    cbn [fst] in *.
    repeat match goal with
           | H : ?s <> EmptyString |- context [isEmpty ?s] =>
               let E := fresh "E" in
               destruct (isEmpty s) eqn:E;
               [exfalso; apply H; now apply isEmpty_spec|]
           end.
    reflexivity.
Qed.

(** X14: when a path is empty, the error of [parseCliFlags] is the text that
    belongs to the first empty path, in the order face model, face
    configuration, sentiment model, sentiment configuration, pose model, pose
    configuration; later paths are not looked at. *)
Theorem parseCliFlags_first_empty (f : Flags) :
  parseCliFlags f =
  option_map snd (find (fun p => isEmpty (fst p)) (requiredPaths f)).
Proof.
  unfold parseCliFlags, requiredPaths. cbn [find fst snd].
  destruct (isEmpty (faceModel f)) eqn:E1;
    [apply isEmpty_spec in E1; rewrite E1; reflexivity|].
  destruct (isEmpty (faceConfig f)) eqn:E2;
    [apply isEmpty_spec in E2; rewrite E2; reflexivity|].
  destruct (isEmpty (sentModel f)) eqn:E3;
    [apply isEmpty_spec in E3; rewrite E3; reflexivity|].
  destruct (isEmpty (sentConfig f)) eqn:E4;
    [apply isEmpty_spec in E4; rewrite E4; reflexivity|].
  destruct (isEmpty (poseModel f)) eqn:E5;
    [apply isEmpty_spec in E5; rewrite E5; reflexivity|].
  destruct (isEmpty (poseConfig f)) eqn:E6;
    [apply isEmpty_spec in E6; rewrite E6; reflexivity|].
  reflexivity.
Qed.

Example parseCliFlags_examples :
  parseCliFlags Scenarios.flagsAll = None /\
  parseCliFlags Scenarios.flagsNoSent =
  Some "Invalid path to .bin file of sentiment detection model: "%string.
Proof. split; reflexivity. Qed.

(** * The publish worker *)

Lemma subseq_nil_l {A : Type} (l : list A) : subseq [] l.
Proof. induction l; constructor; assumption. Qed.

Lemma wrapInt64_small (z : Z) : - 2 ^ 63 <= z < 2 ^ 63 -> wrapInt64 z = z.
Proof.
  intros Hz. unfold wrapInt64. rewrite Z.mod_small; lia.
Qed.

(** X15: for a rate between -9223372036 and 9223372036 seconds, where the
    interval does not wrap around, [messageRunner] panics in [NewTicker]
    before serving anything when the rate is zero or negative, and runs its
    loop otherwise. *)
Theorem messageRunner_rate (topic : string) (rate : Z) (events : list RunnerEvent) :
  - 9223372036 <= rate <= 9223372036 ->
  messageRunner topic rate events =
  if rate <=? 0 then mkRunnerLog [] [] PanicNewTicker else messageLoop topic events.
Proof.
  intros Hr. unfold messageRunner, Second.
  rewrite wrapInt64_small by lia.
  destruct (Z.leb_spec (rate * 1000000000) 0); destruct (Z.leb_spec rate 0);
    try reflexivity; lia.
Qed.

Lemma messageRunner_rate_witness :
  messageRunner "machine/safety" 0 [onPub Scenarios.resultCalm; onDone] =
  mkRunnerLog [] [] PanicNewTicker.
Proof.
  apply (messageRunner_rate "machine/safety" 0 [onPub Scenarios.resultCalm; onDone]).
  lia.
Defined.

(** X16: what the worker publishes is, in order, the payloads of some of the
    results it received, each at most once and always on the topic it was
    given. *)
Theorem published_from_received (topic : string) (rate : Z) (events : list RunnerEvent) :
  let log := messageRunner topic rate events in
  exists taken,
    subseq taken (received events) /\
    map ToMQTTMessage taken = map (fun m => Some (snd m)) (published log) /\
    Forall (fun m => fst m = topic) (published log).
Proof.
  cbv zeta. unfold messageRunner.
  destruct (wrapInt64 (rate * Second) <=? 0).
  { exists []. repeat split; [apply subseq_nil_l | constructor]. }
  induction events as [|[[r|] err|r|] rest (taken & Hsub & Hmap & Htopic)];
    cbn [messageLoop received].
  - exists []. repeat split; constructor.
  - destruct (ToMQTTMessage r) as [payload|] eqn:Hp.
    + exists (r :: taken). cbn [published map snd fst]. repeat split.
      * now constructor.
      * now rewrite Hp, Hmap.
      * now constructor.
    + exists []. repeat split; [apply subseq_nil_l | constructor].
  - exists []. repeat split; [apply subseq_nil_l | constructor].
  - exists taken. repeat split; [now constructor | assumption | assumption].
  - exists []. repeat split; [apply subseq_nil_l | constructor].
Qed.

(** X17: an error returned by [Publish] changes neither what is published
    afterwards nor how the worker ends; it only adds a printed line. *)
Theorem publish_errors_are_ignored (topic : string) (rate : Z)
        (events : list RunnerEvent) :
  published (messageRunner topic rate events) =
  published (messageRunner topic rate (withoutErrors events)) /\
  ending (messageRunner topic rate events) =
  ending (messageRunner topic rate (withoutErrors events)).
Proof.
  unfold messageRunner.
  destruct (wrapInt64 (rate * Second) <=? 0); [split; reflexivity|].
  induction events as [|[[r|] err|r|] rest [IHp IHe]];
    cbn [messageLoop withoutErrors map]; try (split; reflexivity).
  - destruct (ToMQTTMessage r); cbn [published ending]; [|split; reflexivity].
    split; [now rewrite IHp | exact IHe].
  - split; assumption.
Qed.

(** X18: when the ticker fires and no further result arrives, the worker
    stays blocked in its receive: a stop signal that comes later is never
    seen and nothing more is published. *)
Theorem tick_without_result_blocks (topic : string) (pre rest : list RunnerEvent)
        (err : option string) :
  ~ In onDone pre ->
  Forall (fun r => status r <> None) (received pre) ->
  messageLoop topic (pre ++ onTicker None err :: rest) =
  mkRunnerLog (published (messageLoop topic pre)) (printed (messageLoop topic pre)) Blocked.
Proof.
  induction pre as [|[[r|] e|r|] pre IH]; intros Hdone Hst;
    cbn [app messageLoop received] in *.
  - reflexivity.
  - inversion Hst as [|? ? Hr Hrest]; subst.
    unfold ToMQTTMessage. destruct (status r) as [s|]; [|contradiction].
    rewrite IH by (try assumption; intros Hin; apply Hdone; now right).
    reflexivity.
  - reflexivity.
  - inversion Hst; subst.
    apply IH; [intros Hin; apply Hdone; now right | assumption].
  - exfalso. apply Hdone. now left.
Qed.

Lemma tick_without_result_blocks_witness :
  messageLoop "machine/safety"
    ([onTicker (Some Scenarios.resultCalm) None] ++ onTicker None None :: [onDone]) =
  mkRunnerLog
    (published (messageLoop "machine/safety" [onTicker (Some Scenarios.resultCalm) None]))
    (printed (messageLoop "machine/safety" [onTicker (Some Scenarios.resultCalm) None]))
    Blocked.
Proof.
  apply (tick_without_result_blocks "machine/safety"
           [onTicker (Some Scenarios.resultCalm) None] [onDone] None).
  - intros [H | []]. discriminate H.
  - repeat constructor. discriminate.
Defined.

(** A result sent by the frame worker carries the outcome of one of the
    frames. *)
Lemma frameRunner_result_outcome (cfg : Config) (o : Operator)
      (frames : list (Frame * Clock)) (r : Result) :
  In r (snd (frameRunner cfg o frames)) ->
  exists x, In x frames /\ status r = Some (outcome cfg x).
Proof.
  revert o. induction frames as [|[img clk] rest IH]; intros o; cbn [frameRunner].
  - intros [].
  - destruct (frameCycle cfg o img clk) as [o1 r1] eqn:E.
    specialize (IH o1). destruct (frameRunner cfg o1 rest) as [o2 rs].
    cbn [snd] in *. intros [<- | Hin].
    + exists (img, clk). split; [now left|].
      change r1 with (snd (o1, r1)). rewrite <- E. unfold frameCycle.
      apply trackCycle_status.
    + destruct (IH Hin) as (x & Hx & Hs). exists x. split; [now right | exact Hs].
Qed.

(** The payload built from a status reads back as its two flags. *)
Lemma ToMQTTMessage_reads_back (r : Result) (s : Status) :
  status r = Some s ->
  exists payload,
    ToMQTTMessage r = Some payload /\
    Payload.parse payload =
    Some [("Watching"%string, IsWatching s); ("Angry"%string, IsAngry s)].
Proof.
  intros Hs. destruct r as [st w a]; cbn in Hs; subst st.
  destruct s as [[|] [|] c];
    (eexists; split; [reflexivity | vm_compute; reflexivity]).
Qed.

(** X19: when every result the publish worker receives was sent by the frame
    worker, building the payload never dereferences a nil status, and every
    published payload reads back as the watching and angry flags of the
    outcome of one of the frames. *)
Theorem published_payloads_read_back (cfg : Config) (o : Operator)
        (frames : list (Frame * Clock)) (topic : string) (rate : Z)
        (events : list RunnerEvent) :
  Forall (fun r => In r (snd (frameRunner cfg o frames))) (received events) ->
  let log := messageRunner topic rate events in
  ending log <> PanicNilStatus /\
  Forall (fun m => exists x,
              In x frames /\
              Payload.parse (snd m) =
              Some [("Watching"%string, IsWatching (outcome cfg x));
                    ("Angry"%string, IsAngry (outcome cfg x))])
         (published log).
Proof.
  intros Hall; cbv zeta. unfold messageRunner.
  destruct (wrapInt64 (rate * Second) <=? 0); [split; [discriminate | constructor]|].
  induction events as [|[[r|] err|r|] rest IH]; cbn [messageLoop received] in *.
  - split; [discriminate | constructor].
  - inversion Hall as [|? ? Hr Hrest]; subst.
    destruct (frameRunner_result_outcome _ _ _ _ Hr) as (x & Hx & Hs).
    destruct (ToMQTTMessage_reads_back r _ Hs) as (payload & Hp & Hparse).
    rewrite Hp. destruct (IH Hrest) as [He Hpub]. cbn [ending published]. split.
    + exact He.
    + constructor; [|exact Hpub]. exists x. split; assumption.
  - split; [discriminate | constructor].
  - inversion Hall; subst. now apply IH.
  - split; [discriminate | constructor].
Qed.

Lemma published_payloads_read_back_witness :
  let log := messageRunner "machine/safety" 1
               [onPub Examples.resultBothAlerts;
                onTicker (Some Examples.resultBothAlerts) None; onDone] in
  ending log <> PanicNilStatus /\
  Forall (fun m => exists x,
              In x Examples.runAwayAngry /\
              Payload.parse (snd m) =
              Some [("Watching"%string, IsWatching (outcome Examples.cfgDefault x));
                    ("Angry"%string, IsAngry (outcome Examples.cfgDefault x))])
         (published log).
Proof.
  apply (published_payloads_read_back Examples.cfgDefault new_Operator
           Examples.runAwayAngry "machine/safety" 1).
  repeat constructor; vm_compute; right; left; reflexivity.
Defined.

(** * The loop of [main] *)

Section Monitor.

(** X20: once [main] holds a result with a status, every overlay it draws
    has a result label, as long as each result it receives has a status;
    results sent by the frame worker do. *)
Theorem label_once_result_held (result : Result) (perf : Perf) (its : list Iteration) :
  status result <> None ->
  Forall (fun r => status r <> None) (resultsSeen its) ->
  Forall (fun ov => resultLabel ov <> None) (snd (fst (monitorLoop result perf its))).
Proof.
  revert result perf. induction its as [|it rest IH]; intros result perf Hres Hall;
    cbn [monitorLoop].
  - constructor.
  - unfold resultsSeen in Hall. cbn [flat_map] in Hall. fold (resultsSeen rest) in Hall.
    apply Forall_app in Hall. destruct Hall as [Hit Hrest].
    destruct (readOk it); cbn [negb]; [|constructor].
    destruct (imgEmpty it); [now apply IH|].
    assert (Hlabel : forall r, status r <> None -> resultLabel
              (mkOverlay (Result_String r) (AlertWatching r) (AlertAngry r)) <> None).
    { intros r Hr. cbn. unfold Result_String. destruct (status r); [discriminate | contradiction]. }
    destruct (selected it) as [| |r p|]; cbn [monitorStep]; try constructor.
    + inversion Hit; subst.
      destruct (keyPressed it =? 27); [constructor; [now apply Hlabel | constructor]|].
      specialize (IH r p ltac:(assumption) Hrest).
      destruct (monitorLoop r p rest) as [[n ovs] e]. cbn [fst snd] in *.
      constructor; [now apply Hlabel | exact IH].
    + destruct (keyPressed it =? 27); [constructor; [now apply Hlabel | constructor]|].
      specialize (IH result perf Hres Hrest).
      destruct (monitorLoop result perf rest) as [[n ovs] e]. cbn [fst snd] in *.
      constructor; [now apply Hlabel | exact IH].
Qed.

Lemma label_once_result_held_witness :
  Forall (fun ov => resultLabel ov <> None)
         (snd (fst (monitorLoop Scenarios.resultCalm new_Perf Scenarios.turnsReceive))).
Proof.
  apply (label_once_result_held Scenarios.resultCalm new_Perf Scenarios.turnsReceive).
  - discriminate.
  - repeat constructor. discriminate.
Defined.

Lemma last_cons_default {A : Type} (x : A) (l : list A) (d d' : A) :
  last (x :: l) d = last (x :: l) d'.
Proof.
  revert x. induction l as [|y l IH]; intros x; [reflexivity|].
  change (last (y :: l) d = last (y :: l) d'). apply IH.
Qed.

Lemma last_app_default {A : Type} (l0 l : list A) (d : A) :
  last (l0 ++ l) d = last l (last l0 d).
Proof.
  destruct l as [|x l]; [now rewrite app_nil_r|].
  induction l0 as [|a l0 IH]; [reflexivity|].
  cbn [app]. destruct (l0 ++ x :: l) as [|b l1] eqn:E.
  - destruct l0; discriminate E.
  - change (last (a :: b :: l1) d) with (last (b :: l1) d). rewrite IH.
    apply last_cons_default.
Qed.

Lemma last_default_or_in {A : Type} (l : list A) (d : A) :
  last l d = d \/ In (last l d) l.
Proof.
  induction l as [|a l IH]; [now left|].
  destruct l as [|b l]; [right; now left|].
  change (last (a :: b :: l) d) with (last (b :: l) d).
  destruct IH as [-> | IH]; [now left | right; now right].
Qed.

Lemma resultsReceived_cons (it : Iteration) (its : list Iteration) :
  resultsReceived (it :: its) = resultsReceived [it] ++ resultsReceived its.
Proof.
  unfold resultsReceived. cbn [flat_map]. now rewrite app_nil_r.
Qed.

(** What a turn that reaches the [select] and is not interrupted holds and
    draws. *)
Lemma monitorStep_some (result : Result) (perf : Perf) (it : Iteration)
      (r' : Result) (p' : Perf) (ov : Overlay) :
  readOk it = true -> imgEmpty it = false ->
  monitorStep result perf (selected it) = Some (r', p', ov) ->
  r' = last (resultsReceived [it]) result /\ ov = overlayOf r'.
Proof.
  intros Hr He. unfold resultsReceived. cbn [flat_map]. rewrite Hr, He. cbn [andb negb].
  destruct (selected it) as [| |r p|]; cbn; intros H; try discriminate H;
    injection H as <- <- <-; split; reflexivity.
Qed.

(** Every overlay is the one of the latest result received up to the turn
    that draws it. *)
Lemma overlay_of_latest (its : list Iteration) :
  forall (result : Result) (perf : Perf) (ovs1 ovs2 : list Overlay) (ov : Overlay),
    snd (fst (monitorLoop result perf its)) = ovs1 ++ ov :: ovs2 ->
    exists its1 it its2,
      its = its1 ++ it :: its2 /\
      snd (fst (monitorLoop result perf (its1 ++ [it]))) = ovs1 ++ [ov] /\
      ov = overlayOf (last (resultsReceived (its1 ++ [it])) result).
Proof.
  induction its as [|it0 rest IH]; intros result perf ovs1 ovs2 ov; cbn [monitorLoop].
  - intros H. destruct ovs1; discriminate H.
  - destruct (readOk it0) eqn:Hr; cbn [negb];
      [|intros H; destruct ovs1; discriminate H].
    destruct (imgEmpty it0) eqn:He.
    + intros H. destruct (IH _ _ _ _ _ H) as (its1 & it & its2 & -> & Hov & Hlast).
      exists (it0 :: its1), it, its2. repeat split.
      * cbn [app monitorLoop]. rewrite Hr, He. exact Hov.
      * unfold resultsReceived in *. cbn [app flat_map]. rewrite Hr, He. exact Hlast.
    + destruct (monitorStep result perf (selected it0)) as [[[r' p'] ov0]|] eqn:Hstep;
        [|intros H; destruct ovs1; discriminate H].
      destruct (monitorStep_some _ _ _ _ _ _ Hr He Hstep) as [Hr' Hov0].
      assert (Hfirst : snd (fst (monitorLoop result perf ([] ++ [it0]))) = [] ++ [ov0]).
      { cbn [app monitorLoop]. rewrite Hr, He, Hstep. cbn [negb].
        now destruct (keyPressed it0 =? 27). }
      destruct (keyPressed it0 =? 27) eqn:Hk.
      * intros H. cbn [fst snd] in H.
        destruct ovs1 as [|o1 ovs1]; [|destruct ovs1; discriminate H].
        injection H as <- _. exists [], it0, rest. repeat split; [exact Hfirst|].
        now rewrite Hov0, Hr'.
      * destruct (monitorLoop r' p' rest) as [[n ovs] e] eqn:Hloop. cbn [fst snd].
        intros H. destruct ovs1 as [|o1 ovs1].
        -- injection H as <- _. exists [], it0, rest. repeat split; [exact Hfirst|].
           now rewrite Hov0, Hr'.
        -- injection H as <- H.
           destruct (IH r' p' ovs1 ovs2 ov) as (its1 & it & its2 & -> & Hov & Hlast);
             [now rewrite Hloop|].
           exists (it0 :: its1), it, its2. repeat split.
           ++ cbn [app monitorLoop]. rewrite Hr, He, Hstep, Hk. cbn [negb].
              destruct (monitorLoop r' p' (its1 ++ [it])) as [[n' ovs'] e'].
              cbn [fst snd] in *. now rewrite Hov.
           ++ rewrite Hlast, Hr'. cbn [app].
              rewrite (resultsReceived_cons it0 (its1 ++ [it])), last_app_default.
              reflexivity.
Qed.

(** X21: from the start of [main], the overlay drawn on a turn shows the
    label and the alert flags of the latest result received up to and
    including that turn, or of [new(Result)] when none was received; so an
    alert text is drawn only if a result received on that or an earlier turn
    carried that alert. *)
Theorem shown_alert_was_raised (its : list Iteration) (ovs1 ovs2 : list Overlay)
        (ov : Overlay) :
  snd (fst (monitorLoop new_Result new_Perf its)) = ovs1 ++ ov :: ovs2 ->
  exists its1 it its2,
    its = its1 ++ it :: its2 /\
    snd (fst (monitorLoop new_Result new_Perf (its1 ++ [it]))) = ovs1 ++ [ov] /\
    ov = overlayOf (last (resultsReceived (its1 ++ [it])) new_Result) /\
    (showAlertWatching ov = true ->
     exists r, In r (resultsReceived (its1 ++ [it])) /\ AlertWatching r = true) /\
    (showAlertAngry ov = true ->
     exists r, In r (resultsReceived (its1 ++ [it])) /\ AlertAngry r = true).
Proof.
  intros H.
  destruct (overlay_of_latest its _ _ _ _ _ H) as (its1 & it & its2 & Hits & Hov & Hlast).
  exists its1, it, its2. split; [exact Hits|]. split; [exact Hov|]. split; [exact Hlast|].
  rewrite Hlast. cbn [overlayOf showAlertWatching showAlertAngry].
  destruct (last_default_or_in (resultsReceived (its1 ++ [it])) new_Result) as [-> | Hin].
  - split; intros Hf; discriminate Hf.
  - split; intros Hf; eexists; (split; [exact Hin | exact Hf]).
Qed.

Lemma shown_alert_was_raised_witness :
  exists its1 it its2,
    Scenarios.turnsReceive = its1 ++ it :: its2 /\
    snd (fst (monitorLoop new_Result new_Perf (its1 ++ [it]))) =
    [overlayOf new_Result] ++ [Scenarios.overlayBothAlerts] /\
    Scenarios.overlayBothAlerts =
    overlayOf (last (resultsReceived (its1 ++ [it])) new_Result) /\
    (showAlertWatching Scenarios.overlayBothAlerts = true ->
     exists r, In r (resultsReceived (its1 ++ [it])) /\ AlertWatching r = true) /\
    (showAlertAngry Scenarios.overlayBothAlerts = true ->
     exists r, In r (resultsReceived (its1 ++ [it])) /\ AlertAngry r = true).
Proof.
  apply (shown_alert_was_raised Scenarios.turnsReceive [overlayOf new_Result] []
           Scenarios.overlayBothAlerts).
  reflexivity.
Defined.

(** X22: every frame sent to the frame worker is drawn, except the one on
    which a signal or a worker error ends the loop; frames that are empty
    are neither sent nor drawn, so neither count exceeds the number of
    iterations. *)
Theorem sent_frames_are_drawn (result : Result) (perf : Perf) (its : list Iteration) :
  let sent := fst (fst (monitorLoop result perf its)) in
  let drawn := List.length (snd (fst (monitorLoop result perf its))) in
  sent = (drawn + match snd (monitorLoop result perf its) with
                  | Interrupted => 1
                  | _ => 0
                  end)%nat /\
  (sent <= List.length (filter (fun it => negb (imgEmpty it)) its))%nat.
Proof.
  revert result perf. induction its as [|it rest IH]; intros result perf;
    cbv zeta; cbn [monitorLoop filter].
  - cbn. lia.
  - destruct (readOk it); cbn [negb]; [|cbn; lia].
    destruct (imgEmpty it); cbn [negb]; [apply IH|].
    destruct (monitorStep result perf (selected it)) as [[[r' p'] ov]|]; [|cbn; lia].
    destruct (keyPressed it =? 27); [cbn; lia|].
    specialize (IH r' p'). cbv zeta in IH.
    destruct (monitorLoop r' p' rest) as [[n ovs] e]. cbn [fst snd List.length] in *.
    destruct e; lia.
Qed.

End Monitor.
